(** * Ask CFPB views: link annotation and legacy facet redirects

  A shallow embedding of [annotate_links] and [redirect_ask_search] from
  [cfgov/ask_cfpb/views.py], with the properties of the two routines.

  Python [str] values are modelled as [string]; every character stands for
  one code point below 256. *)

From Stdlib Require Import String Ascii List Bool Arith Lia.
From Stdlib Require Import DecimalString.
Import ListNotations.
Open Scope list_scope.
Open Scope string_scope.

(** ** Python string primitives used by the views *)

Module Py.

(** Truth value of a [str]: only the empty string is falsy. *)
Definition truthy (s : string) : bool :=
  match s with
  | EmptyString => false
  | String _ _ => true
  end.

(** Truth value of a possibly-[None] [str]. *)
Definition truthy_opt (o : option string) : bool :=
  match o with
  | None => false
  | Some s => truthy s
  end.

(** [old] starts at the head of [s]. *)
Fixpoint starts (old s : string) : bool :=
  match old with
  | EmptyString => true
  | String a old' =>
      match s with
      | EmptyString => false
      | String b s' => Ascii.eqb a b && starts old' s'
      end
  end.

(** [sub in s]. *)
Fixpoint contains (sub s : string) : bool :=
  match s with
  | EmptyString => starts sub EmptyString
  | String _ s' => starts sub s || contains sub s'
  end.

(** [s.replace(old, new)] for a non-empty [old]: scan left to right, and at
    each position where [old] starts emit [new] and jump over [old].
    [skip] counts the characters of a matched [old] still to jump over. *)
Fixpoint replace_from (old new : string) (skip : nat) (s : string) : string :=
  match s with
  | EmptyString => EmptyString
  | String c s' =>
      match skip with
      | S k => replace_from old new k s'
      | O =>
          if starts old s
          then new ++ replace_from old new (String.length old - 1) s'
          else String c (replace_from old new 0 s')
      end
  end.

(** With an empty [old], Python puts [new] before every character and at
    the end. *)
Fixpoint interleave (new s : string) : string :=
  match s with
  | EmptyString => new
  | String c s' => new ++ String c (interleave new s')
  end.

Definition replace (old new s : string) : string :=
  match old with
  | EmptyString => interleave new s
  | String _ _ => replace_from old new 0 s
  end.

(** [str.isspace] on one code point below 256. *)
Definition isspace (c : ascii) : bool :=
  let n := nat_of_ascii c in
  (Nat.leb 9 n && Nat.leb n 13) || (Nat.leb 28 n && Nat.leb n 32)
  || Nat.eqb n 133 || Nat.eqb n 160.

Fixpoint lstrip (s : string) : string :=
  match s with
  | EmptyString => EmptyString
  | String c s' => if isspace c then lstrip s' else s
  end.

Fixpoint rstrip (s : string) : string :=
  match s with
  | EmptyString => EmptyString
  | String c s' =>
      match rstrip s' with
      | EmptyString => if isspace c then EmptyString else String c EmptyString
      | r => String c r
      end
  end.

(** [s.strip()]. *)
Definition strip (s : string) : string := rstrip (lstrip s).

(** [str(n)] for a non-negative [int]. *)
Definition str_of_nat (n : nat) : string :=
  NilEmpty.string_of_uint (Nat.to_uint n).

End Py.


(** ** Exceptions and results *)

(** The exceptions the two views can end in. *)
Inductive exception : Type :=
| DoesNotExist
| MultipleObjectsReturned
| RuntimeError (msg : string)
| ValueError
| Http404.

Definition exception_eqb (e1 e2 : exception) : bool :=
  match e1, e2 with
  | DoesNotExist, DoesNotExist => true
  | MultipleObjectsReturned, MultipleObjectsReturned => true
  | RuntimeError m1, RuntimeError m2 => String.eqb m1 m2
  | ValueError, ValueError => true
  | Http404, Http404 => true
  | _, _ => false
  end.

(** A computation either returns a value or raises. *)
Inductive result (A : Type) : Type :=
| Return (a : A)
| Raise (e : exception).

Arguments Return {A} a.
Arguments Raise {A} e.

Definition bind {A B : Type} (r : result A) (k : A -> result B) : result B :=
  match r with
  | Return a => k a
  | Raise e => Raise e
  end.

Notation "x <- r ;; k" := (bind r (fun x => k))
  (at level 61, r at next level, right associativity).
Notation "' pat <- r ;; k" := (bind r (fun x => match x with pat => k end))
  (at level 61, pat pattern, r at next level, right associativity).

(** [try: r  except e: handler]. *)
Definition try_except {A : Type} (r : result A) (e : exception)
  (handler : result A) : result A :=
  match r with
  | Return a => Return a
  | Raise e' => if exception_eqb e' e then handler else Raise e'
  end.

(** ** Requests and responses *)

(** [request.GET]: the query-string parameters, one pair per occurrence, in
    the order of the query string. *)
Definition QueryDict : Type := list (string * string).

(** [GET.getlist(key)]: every value given for [key], in order. *)
Definition getlist (d : QueryDict) (key : string) : list string :=
  map snd (filter (fun kv => String.eqb (fst kv) key) d).

(** [GET.get(key)]: the last value given for [key], [None] without one. *)
Definition get (d : QueryDict) (key : string) : option string :=
  last (map Some (getlist d key)) None.

Record HttpRequest : Type := { GET : QueryDict }.

Inductive HttpResponse : Type :=
| HttpResponseRedirect (url : string)
| HttpResponsePermanentRedirect (url : string).

(** [django.shortcuts.redirect(to, permanent=...)] on a URL path. *)
Definition redirect (to : string) (permanent : bool) : HttpResponse :=
  if permanent then HttpResponsePermanentRedirect to
  else HttpResponseRedirect to.

(** ** Parsed documents *)

Set Warnings "-register-all".

(** A node of a parsed document.  [ident] stands for the identity of the
    Python object: the parser gives every tag its own. *)
Inductive PageElement : Type :=
| NavigableString (s : string)
| Tag (ident : nat) (name : string) (attrs : list (string * string))
    (contents : list PageElement).

(** Every node below [e], in document order. *)
Fixpoint descendants (e : PageElement) : list PageElement :=
  match e with
  | NavigableString _ => []
  | Tag _ _ _ cs => flat_map (fun c => c :: descendants c) cs
  end.

Definition is_tag_named (name : string) (e : PageElement) : bool :=
  match e with
  | NavigableString _ => false
  | Tag _ n _ _ => String.eqb n name
  end.

(** [soup.findAll(name)]. *)
Definition findAll (name : string) (soup : PageElement) : list PageElement :=
  filter (is_tag_named name) (descendants soup).

Fixpoint lookup_attr (key : string) (attrs : list (string * string))
  : option string :=
  match attrs with
  | [] => None
  | (k, v) :: rest => if String.eqb k key then Some v else lookup_attr key rest
  end.

(** [tag.get(key)]. *)
Definition tag_get (e : PageElement) (key : string) : option string :=
  match e with
  | NavigableString _ => None
  | Tag _ _ attrs _ => lookup_attr key attrs
  end.

Definition has_ident (i : nat) (e : PageElement) : bool :=
  match e with
  | NavigableString _ => false
  | Tag j _ _ _ => Nat.eqb i j
  end.

Definition ident_of (e : PageElement) : nat :=
  match e with
  | NavigableString _ => 0
  | Tag i _ _ _ => i
  end.

(** The largest identity in use in [e]. *)
Fixpoint max_ident (e : PageElement) : nat :=
  match e with
  | NavigableString _ => 0
  | Tag i _ _ cs => fold_right (fun c m => Nat.max (max_ident c) m) i cs
  end.

(** [soup.new_tag(name)] followed by [tag.string = text]. *)
Definition new_tag (soup : PageElement) (name text : string) : PageElement :=
  Tag (S (max_ident soup)) name [] [NavigableString text].

(** [parent = link.parent; parent.insert(parent.index(link) + 1, new)]:
    [new] becomes the sibling right after the tag whose identity is
    [target]. *)
Fixpoint insert_after (target : nat) (new : PageElement) (e : PageElement)
  : PageElement :=
  match e with
  | NavigableString s => NavigableString s
  | Tag i n a cs =>
      Tag i n a
        ((fix siblings (l : list PageElement) : list PageElement :=
            match l with
            | [] => []
            | c :: rest =>
                if has_ident target c
                then insert_after target new c :: new :: siblings rest
                else insert_after target new c :: siblings rest
            end) cs)
  end.

(** ** Sites *)

Record Site : Type := { is_default_site : bool; root_url : string }.

(** [Model.objects.get(...)] over the rows of a table. *)
Definition objects_get {A : Type} (p : A -> bool) (table : list A) : result A :=
  match filter p table with
  | [] => Raise DoesNotExist
  | [row] => Return row
  | _ :: _ :: _ => Raise MultipleObjectsReturned
  end.

(** ** The views *)

Definition category_facet : string := "category_exact:".
Definition audience_facet : string := "audience_exact:".
Definition tag_facet : string := "tag_exact:".

(** The three helpers nested in [redirect_ask_search]. *)
Definition redirect_to_category (category language : string) : HttpResponse :=
  if String.eqb language "es"
  then redirect ("/es/obtener-respuestas/categoria-" ++ category ++ "/") true
  else redirect ("/ask-cfpb/category-" ++ category ++ "/") true.

Definition redirect_to_audience (audience : string) : HttpResponse :=
  redirect ("/ask-cfpb/audience-" ++ audience ++ "/") true.

Definition redirect_to_tag (tag language : string) : HttpResponse :=
  if String.eqb language "es"
  then redirect ("/es/obtener-respuestas/buscar-por-etiqueta/" ++ tag ++ "/") true
  else redirect ("/ask-cfpb/search-by-tag/" ++ tag ++ "/") true.

(** One of the three loops of [redirect_ask_search]:
    [for facet in facets: if marker in facet: value = facet.replace(marker, '');
    if value: return handler(value)].  [None] when the loop runs to its end. *)
Fixpoint scan_facets {A : Type} (marker : string) (handler : string -> A)
  (facets : list string) : option A :=
  match facets with
  | [] => None
  | facet :: rest =>
      if Py.contains marker facet
      then
        let value := Py.replace marker "" facet in
        if Py.truthy value then Some (handler value)
        else scan_facets marker handler rest
      else scan_facets marker handler rest
  end.

(** [not facets or not facets[0]]. *)
Definition no_leading_facet (facets : list string) : bool :=
  match facets with
  | [] => true
  | first :: _ => negb (Py.truthy first)
  end.

(** The footnote loop of [annotate_links] keeps the document, the footnotes
    collected so far and the next index. *)
Definition annotation : Type := (PageElement * list (nat * string) * nat)%type.

(** The non-empty value a facet carries for [marker], if any. *)
Definition facet_value (marker facet : string) : option string :=
  if Py.contains marker facet
  then
    let value := Py.replace marker "" facet in
    if Py.truthy value then Some value else None
  else None.

(** The value of the first facet that carries a non-empty one for [marker]. *)
Fixpoint first_value (marker : string) (facets : list string) : option string :=
  match facets with
  | [] => None
  | facet :: rest =>
      match facet_value marker facet with
      | Some value => Some value
      | None => first_value marker rest
      end
  end.

(** The tag in the words of the specification: one pass over the raw value
    in which every space, every [%20] and every [+] becomes an underscore
    and nothing else changes.  [skip] counts the characters of a [%20] still
    to jump over. *)
Fixpoint underscored (skip : nat) (raw : string) : string :=
  match raw with
  | EmptyString => EmptyString
  | String c rest =>
      match skip with
      | S k => underscored k rest
      | O =>
          if Py.starts "%20" raw then String "_" (underscored 2 rest)
          else if Ascii.eqb c " " || Ascii.eqb c "+"
               then String "_" (underscored 0 rest)
               else String c (underscored 0 rest)
      end
  end.

(** The destination of an anchor that has a non-empty one. *)
Definition destination (link : PageElement) : option string :=
  match tag_get link "href" with
  | Some href => if Py.truthy href then Some href else None
  | None => None
  end.

(** The destinations of the anchors that have one, in the order of [links]. *)
Fixpoint destinations (links : list PageElement) : list string :=
  match links with
  | [] => []
  | link :: rest =>
      match destination link with
      | Some href => href :: destinations rest
      | None => destinations rest
      end
  end.

(** ** Reading a document *)

(** The sibling list of [insert_after]: [new] goes in right after every
    child whose identity is [target]. *)
Fixpoint insert_siblings (target : nat) (new : PageElement)
  (l : list PageElement) : list PageElement :=
  match l with
  | [] => []
  | c :: rest =>
      if has_ident target c
      then insert_after target new c :: new :: insert_siblings target new rest
      else insert_after target new c :: insert_siblings target new rest
  end.

Definition attrs_of (e : PageElement) : list (string * string) :=
  match e with
  | NavigableString _ => []
  | Tag _ _ attrs _ => attrs
  end.

(** What identifies an anchor and what it points to: its identity and its
    attributes. *)
Definition anchor_head (e : PageElement) : nat * list (string * string) :=
  (ident_of e, attrs_of e).

(** The anchors at or below [e], in document order. *)
Definition anchors_at (e : PageElement) : list PageElement :=
  filter (is_tag_named "a") (e :: descendants e).

Definition has_destination (link : PageElement) : bool :=
  match destination link with
  | Some _ => true
  | None => false
  end.

(** [<sup>index</sup>], as [annotate_links] makes it. *)
Definition is_marker (index : nat) (e : PageElement) : bool :=
  match e with
  | Tag _ name [] [NavigableString text] =>
      String.eqb name "sup" && String.eqb text (Py.str_of_nat index)
  | _ => false
  end.

(** In a sibling list, every child with identity [target] has the marker of
    [index] as its next sibling; [below] checks the children themselves. *)
Fixpoint siblings_followed (below : PageElement -> bool) (target index : nat)
  (l : list PageElement) : bool :=
  match l with
  | [] => true
  | c :: rest =>
      below c
      && (if has_ident target c
          then match rest with
               | m :: _ => is_marker index m
               | [] => false
               end
          else true)
      && siblings_followed below target index rest
  end.

(** Everywhere below [e], a tag with identity [target] has the marker of
    [index] as its next sibling. *)
Fixpoint followed_by (target index : nat) (e : PageElement) : bool :=
  match e with
  | NavigableString _ => true
  | Tag _ _ _ cs =>
      (fix siblings (l : list PageElement) : bool :=
         match l with
         | [] => true
         | c :: rest =>
             followed_by target index c
             && (if has_ident target c
                 then match rest with
                      | m :: _ => is_marker index m
                      | [] => false
                      end
                 else true)
             && siblings rest
         end) cs
  end.

(** A tag with identity [target] stands somewhere below [e]. *)
Definition occurs (target : nat) (e : PageElement) : bool :=
  existsb (has_ident target) (descendants e).

(** ** Search, autocomplete and answer pages *)

(** [GET.get(key, default)]. *)
Definition get_or (d : QueryDict) (key default : string) : string :=
  match get d key with
  | Some value => value
  | None => default
  end.

(** [key in GET]. *)
Definition has_key (d : QueryDict) (key : string) : bool :=
  existsb (fun kv => String.eqb (fst kv) key) d.

(** The values handed to [json.dumps] and [JsonResponse]. *)
Inductive json : Type :=
| JNull
| JString (s : string)
| JArray (items : list json)
| JObject (members : list (string * json)).

Definition json_of_option (o : option string) : json :=
  match o with
  | Some s => JString s
  | None => JNull
  end.

(** One hit of the search index, with the stored fields the views read. *)
Record SearchResult : Type :=
  { result_autocomplete : string;
    result_url : string;
    result_text : string;
    result_preview : string }.

(** The attributes of an [AskSearch] object that [ask_search] reads. *)
Record AskSearch : Type :=
  { search_term : string;
    queryset : list SearchResult;
    suggestion : option string }.

(** An [AnswerResultsPage]: the two columns it is looked up by, and the
    attributes that [ask_search] sets before serving it. *)
Record AnswerResultsPage : Type :=
  { results_language : string;
    results_slug : string;
    query : option string;
    result_query : option string;
    results_suggestion : option string;
    answers : list (string * string * string) }.

(** What [ask_search] answers with: the legacy redirect, the results page
    handed to [serve], or the body of the JSON response, before
    [json.dumps]. *)
Inductive SearchResponse : Type :=
| LegacyRedirect (response : HttpResponse)
| ServedResults (results_page : AnswerResultsPage)
| JsonBody (results : json).

(** [ask_search] can also end in the [KeyError] of [language_map]. *)
Inductive search_exception : Type :=
| KeyError (key : string)
| Raised (e : exception).

Inductive search_outcome : Type :=
| Answered (response : SearchResponse)
| Failed (e : search_exception).

(** The dict [language_map] of [ask_search]. *)
Definition language_map (language : string) : option string :=
  if String.eqb language "en" then Some "ask-cfpb-search-results"
  else if String.eqb language "es" then Some "respuestas"
  else None.

(** [get_object_or_404(Model, ...)] over the rows of a table. *)
Definition get_object_or_404 {A : Type} (p : A -> bool) (table : list A)
  : result A :=
  try_except (objects_get p table) DoesNotExist (Raise Http404).

(** The JSON object of one hit in [ask_search]. *)
Definition result_json (r : SearchResult) : json :=
  JObject
    [("question", JString (result_autocomplete r));
     ("url", JString (result_url r));
     ("text", JString (result_text r));
     ("preview", JString (result_preview r))].

(** The JSON object of one hit in [ask_autocomplete]. *)
Definition completion_json (r : SearchResult) : json :=
  JObject
    [("question", JString (result_autocomplete r));
     ("url", JString (result_url r))].

(** The columns and attributes of an [AnswerPage] that [view_answer]
    reads; [redirect_url] is the URL of [redirect_to_page], if there is
    one. *)
Record AnswerPage : Type :=
  { live : bool;
    redirect_url : option string;
    answer_url : string;
    answer_slug : string }.

(** ** Sample inputs

    A slugifier, a parser, a serializer and a URL resolver to run the views
    on concrete requests and pages. *)

Definition is_word (c : ascii) : bool :=
  let n := nat_of_ascii c in
  (Nat.leb 48 n && Nat.leb n 57) || (Nat.leb 65 n && Nat.leb n 90)
  || (Nat.leb 97 n && Nat.leb n 122) || Nat.eqb n 95.

Definition is_hyphen (c : ascii) : bool := Nat.eqb (nat_of_ascii c) 45.

Definition lower (c : ascii) : ascii :=
  let n := nat_of_ascii c in
  if Nat.leb 65 n && Nat.leb n 90 then ascii_of_nat (n + 32) else c.

Fixpoint keep_slug_chars (s : string) : string :=
  match s with
  | EmptyString => EmptyString
  | String c s' =>
      if (is_word c || Py.isspace c || is_hyphen c)
         && Nat.ltb (nat_of_ascii c) 128
      then String c (keep_slug_chars s')
      else keep_slug_chars s'
  end.

Fixpoint lower_all (s : string) : string :=
  match s with
  | EmptyString => EmptyString
  | String c s' => String (lower c) (lower_all s')
  end.

Fixpoint hyphenate (in_run : bool) (s : string) : string :=
  match s with
  | EmptyString => EmptyString
  | String c s' =>
      if Py.isspace c || is_hyphen c
      then if in_run then hyphenate true s' else String "-" (hyphenate true s')
      else String c (hyphenate false s')
  end.

(** Django's [slugify] (as of Django 2.2) on ASCII text: keep letters,
    digits, underscores, hyphens and whitespace, trim, lower-case, and turn
    every run of hyphens and whitespace into one hyphen. *)
Definition ascii_slugify (value : string) : string :=
  hyphenate false (lower_all (Py.strip (keep_slug_chars value))).

Fixpoint sample_attrs (attrs : list (string * string)) : string :=
  match attrs with
  | [] => ""
  | (k, v) :: rest => " " ++ k ++ "='" ++ v ++ "'" ++ sample_attrs rest
  end.

(** Markup of a document tree, attribute values in single quotes. *)
Fixpoint sample_str (e : PageElement) : string :=
  match e with
  | NavigableString s => s
  | Tag _ n attrs cs =>
      let inner := String.concat "" (map sample_str cs) in
      if String.eqb n "[document]" then inner
      else "<" ++ n ++ sample_attrs attrs ++ ">" ++ inner ++ "</" ++ n ++ ">"
  end.

Definition sample_text : string :=
  "<p>See <a href=/ask-cfpb/>Ask</a>, <a>here</a>, <a href>there</a> and <a href=https://example.com/x>elsewhere</a>.</p>".

Definition sample_soup : PageElement :=
  Tag 0 "[document]" []
    [Tag 1 "html" []
       [Tag 2 "body" []
          [Tag 3 "p" []
             [NavigableString "See ";
              Tag 4 "a" [("href", "/ask-cfpb/")] [NavigableString "Ask"];
              NavigableString ", ";
              Tag 5 "a" [] [NavigableString "here"];
              NavigableString ", ";
              Tag 6 "a" [("href", "")] [NavigableString "there"];
              NavigableString " and ";
              Tag 7 "a" [("href", "https://example.com/x")]
                [NavigableString "elsewhere"];
              NavigableString "."]]]].

Definition plain_text : string := "<p>No <a name=top>links</a> here.</p>".

Definition plain_soup : PageElement :=
  Tag 0 "[document]" []
    [Tag 1 "html" []
       [Tag 2 "body" []
          [Tag 3 "p" []
             [NavigableString "No ";
              Tag 4 "a" [("name", "top")] [NavigableString "links"];
              NavigableString " here."]]]].

(** The parse of the two sample texts; an empty document for any other. *)
Definition sample_bs (text : string) : PageElement :=
  if String.eqb text sample_text then sample_soup
  else if String.eqb text plain_text then plain_soup
  else Tag 0 "[document]" [] [].

(** URL resolution for the two shapes of destination in the samples: an
    absolute URL stands, a path from the root goes after the base. *)
Definition sample_urljoin (base url : string) : option string :=
  if Py.starts "https://" url || Py.starts "http://" url then Some url
  else Some (base ++ url).

Definition sample_sites : list Site :=
  [ {| is_default_site := false; root_url := "http://content.localhost" |};
    {| is_default_site := true; root_url := "https://www.consumerfinance.gov" |} ].

(** The sample document as the loop of [annotate_links] leaves it. *)
Definition annotated_soup : PageElement :=
  Tag 0 "[document]" []
    [Tag 1 "html" []
       [Tag 2 "body" []
          [Tag 3 "p" []
             [NavigableString "See ";
              Tag 4 "a" [("href", "/ask-cfpb/")] [NavigableString "Ask"];
              Tag 8 "sup" [] [NavigableString "1"];
              NavigableString ", ";
              Tag 5 "a" [] [NavigableString "here"];
              NavigableString ", ";
              Tag 6 "a" [("href", "")] [NavigableString "there"];
              NavigableString " and ";
              Tag 7 "a" [("href", "https://example.com/x")]
                [NavigableString "elsewhere"];
              Tag 9 "sup" [] [NavigableString "2"];
              NavigableString "."]]]].

Definition sample_hits : list SearchResult :=
  [ {| result_autocomplete := "What is a mortgage?";
       result_url := "/ask-cfpb/what-is-a-mortgage-en-99/";
       result_text := "A mortgage is a loan to buy a home.";
       result_preview := "A mortgage is a loan" |};
    {| result_autocomplete := "What is a reverse mortgage?";
       result_url := "/ask-cfpb/what-is-a-reverse-mortgage-en-224/";
       result_text := "A reverse mortgage is a loan for older homeowners.";
       result_preview := "A reverse mortgage is" |} ].

(** An index that knows one term. *)
Definition sample_sqs (term language : string) : option (list SearchResult) :=
  if String.eqb term "mortgage" then Some sample_hits else Some [].

(** The same index, failing on every term that is empty or holds [<]. *)
Definition guarded_sqs (term language : string)
  : option (list SearchResult) :=
  if Py.truthy term && negb (Py.contains "<" term)
  then sample_sqs term language
  else None.

Definition sample_new_AskSearch (q language : string) : AskSearch :=
  {| search_term := q;
     queryset := if String.eqb q "mortgage" then sample_hits else [];
     suggestion := None |}.

Definition sample_suggest (search : AskSearch) (request : HttpRequest)
  : AskSearch :=
  {| search_term := "mortgage";
     queryset := sample_hits;
     suggestion := Some "mortgage" |}.

Definition sample_results_pages : list AnswerResultsPage :=
  [ {| results_language := "en";
       results_slug := "ask-cfpb-search-results";
       query := None;
       result_query := None;
       results_suggestion := None;
       answers := [] |};
    {| results_language := "es";
       results_slug := "respuestas";
       query := None;
       result_query := None;
       results_suggestion := None;
       answers := [] |} ].

(** The English results page as served for the query [mortgage]. *)
Definition sample_served_page : AnswerResultsPage :=
  {| results_language := "en";
     results_slug := "ask-cfpb-search-results";
     query := Some "mortgage";
     result_query := Some "mortgage";
     results_suggestion := None;
     answers :=
       [("/ask-cfpb/what-is-a-mortgage-en-99/", "What is a mortgage?",
         "A mortgage is a loan");
        ("/ask-cfpb/what-is-a-reverse-mortgage-en-224/",
         "What is a reverse mortgage?", "A reverse mortgage is")] |}.

Definition sample_answer_page : AnswerPage :=
  {| live := true;
     redirect_url := None;
     answer_url := "/ask-cfpb/what-is-a-mortgage-en-99/";
     answer_slug := "what-is-a-mortgage-en-99" |}.

Definition sample_AnswerPage_get (language answer_id : string)
  : result AnswerPage :=
  if String.eqb language "en" && String.eqb answer_id "99"
  then Return sample_answer_page
  else Raise DoesNotExist.

Section Views.

(** [django.template.defaultfilters.slugify]. *)
Variable slugify : string -> string.

(** [BeautifulSoup(text, 'lxml')] and [str(soup)]. *)
Variable bs : string -> PageElement.
Variable soup_str : PageElement -> string.

(** [urllib.parse.urljoin(base, url)]; [None] when it raises [ValueError]. *)
Variable urljoin : string -> string -> option string.

(** The three loops of [redirect_ask_search], category first, then
    audience, then tag, and the [raise Http404] after them. *)
Definition facet_redirects (facets : list string) (language : string)
  : result HttpResponse :=
  match
    scan_facets category_facet
      (fun category => redirect_to_category (slugify category) language) facets
  with
  | Some response => Return response
  | None =>
      match
        scan_facets audience_facet
          (fun audience_raw =>
             redirect_to_audience (slugify (Py.replace "+" "-" audience_raw)))
          facets
      with
      | Some response => Return response
      | None =>
          match
            scan_facets tag_facet
              (fun raw_tag =>
                 redirect_to_tag
                   (Py.replace "+" "_"
                      (Py.replace "%20" "_" (Py.replace " " "_" raw_tag)))
                   language)
              facets
          with
          | Some response => Return response
          | None => Raise Http404
          end
      end
  end.

(** [redirect_ask_search(request, language)]. *)
Definition redirect_ask_search (request : HttpRequest) (language : string)
  : result HttpResponse :=
  if Py.truthy_opt (get (GET request) "q")
  then
    let querystring :=
      Py.strip (match get (GET request) "q" with Some q => q | None => "" end) in
    if negb (Py.truthy querystring)
    then Return (redirect "/ask-cfpb/search/" true)
    else Return (redirect ("/ask-cfpb/search/?q=" ++ querystring) true)
  else
    let facets := getlist (GET request) "selected_facets" in
    if no_leading_facet facets
    then Return (redirect "/ask-cfpb/search/" true)
    else facet_redirects facets language.

(** The request that carries [query_text] as [q] and [facets] as
    [selected_facets]. *)
Definition legacy_request (query_text : option string) (facets : list string)
  : HttpRequest :=
  {| GET :=
      match query_text with
      | Some q => [("q", q)]
      | None => []
      end ++ map (fun facet => ("selected_facets", facet)) facets |}%list.

(** The redirector as a function of the query text, the facets and the
    language. *)
Definition resolve_redirect (query_text : option string)
  (facets : list string) (language : string) : result HttpResponse :=
  redirect_ask_search (legacy_request query_text facets) language.

(** The body of [for link in links] in [annotate_links]. *)
Fixpoint annotate_loop (_site : Site) (links : list PageElement)
  (st : annotation) : result annotation :=
  match links with
  | [] => Return st
  | link :: rest =>
      let '(soup, footnotes, index) := st in
      match tag_get link "href" with
      | None => annotate_loop _site rest st
      | Some href =>
          if negb (Py.truthy href) then annotate_loop _site rest st
          else
            match urljoin (root_url _site) href with
            | None => Raise ValueError
            | Some url =>
                let footnotes' := (footnotes ++ [(index, url)])%list in
                let super_tag := new_tag soup "sup" (Py.str_of_nat index) in
                let soup' := insert_after (ident_of link) super_tag soup in
                annotate_loop _site rest (soup', footnotes', index + 1)
            end
      end
  end.

(** [annotate_links(answer_text)], over the rows [sites] of the site
    table. *)
Definition annotate_links (sites : list Site) (answer_text : string)
  : result (string * list (nat * string)) :=
  _site <-
    try_except (objects_get is_default_site sites) DoesNotExist
      (Raise (RuntimeError "no default wagtail site configured")) ;;
  let soup := bs answer_text in
  let links := findAll "a" soup in
  '(soup', footnotes, _) <- annotate_loop _site links (soup, [], 1) ;;
  Return (soup_str soup', footnotes).


(** The hits of [SearchQuerySet().models(AnswerPage).autocomplete(
    autocomplete=term, language=language)]; [None] when reading them raises
    [IndexError]. *)
Variable sqs_autocomplete : string -> string -> option (list SearchResult).

(** [ask_autocomplete(request, language)]: the payload of the
    [JsonResponse]. *)
Definition ask_autocomplete (request : HttpRequest) (language : string)
  : json :=
  let term := Py.replace "<" "" (Py.strip (get_or (GET request) "term" "")) in
  if negb (Py.truthy term) then JArray []
  else
    match sqs_autocomplete term language with
    | Some sqs => JArray (map completion_json (firstn 20 sqs))
    | None => JArray []
    end.

(** [AskSearch(search_term=..., language=...)], and the object as
    [search.suggest(request=request)] leaves it. *)
Variable new_AskSearch : string -> string -> AskSearch.
Variable AskSearch_suggest : AskSearch -> HttpRequest -> AskSearch.

(** [ask_search(request, language, as_json)], over the rows
    [results_pages] of the results page table. *)
Definition ask_search (results_pages : list AnswerResultsPage)
  (request : HttpRequest) (language : string) (as_json : bool)
  : search_outcome :=
  if has_key (GET request) "selected_facets"
  then
    match redirect_ask_search request language with
    | Return response => Answered (LegacyRedirect response)
    | Raise e => Failed (Raised e)
    end
  else
    match language_map language with
    | None => Failed (KeyError language)
    | Some slug =>
        match
          get_object_or_404
            (fun row =>
               String.eqb (results_language row) language
               && String.eqb (results_slug row) slug)
            results_pages
        with
        | Raise e => Failed (Raised e)
        | Return results_page =>
            let q := get_or (GET request) "q" "" in
            if negb (Py.truthy q)
            then
              Answered
                (ServedResults
                   {| results_language := results_language results_page;
                      results_slug := results_slug results_page;
                      query := Some "";
                      result_query := Some "";
                      results_suggestion := results_suggestion results_page;
                      answers := answers results_page |})
            else
              let search := new_AskSearch q language in
              let search :=
                if Nat.eqb (List.length (queryset search)) 0
                then AskSearch_suggest search request
                else search in
              if as_json
              then
                Answered
                  (JsonBody
                     (JObject
                        [("query", JString q);
                         ("result_query", JString (search_term search));
                         ("suggestion", json_of_option (suggestion search));
                         ("results",
                          JArray (map result_json (queryset search)))]))
              else
                Answered
                  (ServedResults
                     {| results_language := results_language results_page;
                        results_slug := results_slug results_page;
                        query := Some q;
                        result_query := Some (search_term search);
                        results_suggestion := suggestion search;
                        answers :=
                          map
                            (fun r =>
                               (result_url r, result_autocomplete r,
                                result_preview r))
                            (queryset search) |})
        end
    end.

(** [AnswerPage.objects.get(language=language, answer_base__id=answer_id)],
    for [answer_id] as the URL gives it. *)
Variable AnswerPage_get : string -> string -> result AnswerPage.

(** [SharingSite.find_for_request(request)], [None] for [DoesNotExist]; and
    [ServeView.route] followed by [ServeView.serve] on the sharing site. *)
Variable SharingSite : Type.
Variable Rendered : Type.
Variable find_for_request : HttpRequest -> option SharingSite.
Variable ServeView_serve : SharingSite -> HttpRequest -> result Rendered.

(** What [view_answer] answers with: a redirect, the answer page handed to
    its own [serve], or what the sharing view rendered. *)
Inductive AnswerResponse : Type :=
| AnswerRedirect (response : HttpResponse)
| ServedAnswer (answer_page : AnswerPage)
| SharedAnswer (rendered : Rendered).

(** [view_answer(request, slug, language, answer_id)]. *)
Definition view_answer (request : HttpRequest) (slug language answer_id : string)
  : result AnswerResponse :=
  answer_page <-
    try_except (AnswerPage_get language answer_id) DoesNotExist
      (Raise Http404) ;;
  if negb (live answer_page) then Raise Http404
  else
    match redirect_url answer_page with
    | Some new_page_url => Return (AnswerRedirect (redirect new_page_url true))
    | None =>
        if negb
             (String.eqb (slug ++ "-" ++ language ++ "-" ++ answer_id)
                (answer_slug answer_page))
        then Return (AnswerRedirect (redirect (answer_url answer_page) true))
        else
          match find_for_request request with
          | None => Return (ServedAnswer answer_page)
          | Some sharing_site =>
              rendered <- ServeView_serve sharing_site request ;;
              Return (SharedAnswer rendered)
          end
    end.


(** ** Facts about the string primitives *)

Lemma truthy_true_iff (s : string) : Py.truthy s = true <-> s <> "".
Proof.
  destruct s; simpl; split; intro H; try reflexivity; try discriminate.
  now elim H.
Qed.

Lemma truthy_false_iff (s : string) : Py.truthy s = false <-> s = "".
Proof.
  destruct s; simpl; split; intro H; try reflexivity; discriminate.
Qed.

(** No query text: [q] is missing, or empty. *)
Lemma truthy_opt_false_iff (o : option string) :
  Py.truthy_opt o = false <-> o = None \/ o = Some "".
Proof.
  destruct o as [s|]; cbn [Py.truthy_opt].
  - rewrite truthy_false_iff. split.
    + intros ->. right. reflexivity.
    + intros [H|H]; [discriminate | now injection H].
  - split; [intros _; left|]; reflexivity.
Qed.

Lemma starts_append (p s : string) : Py.starts p (p ++ s) = true.
Proof.
  induction p as [|a p IH]; simpl.
  - reflexivity.
  - rewrite Ascii.eqb_refl. exact IH.
Qed.

Lemma starts_true_iff (p s : string) :
  Py.starts p s = true <-> exists post, s = p ++ post.
Proof.
  split.
  - revert s. induction p as [|a p IH]; intros s H.
    + exists s. reflexivity.
    + destruct s as [|b s]; simpl in H; [discriminate|].
      apply andb_true_iff in H. destruct H as [Hab H].
      apply Ascii.eqb_eq in Hab. subst b.
      destruct (IH s H) as [post ->]. exists post. reflexivity.
  - intros [post ->]. apply starts_append.
Qed.

(** [sub in s] holds exactly when [sub] occurs somewhere in [s]. *)
Lemma contains_true_iff (sub s : string) :
  Py.contains sub s = true <-> exists pre post, s = pre ++ sub ++ post.
Proof.
  split.
  - induction s as [|c s IH]; intro H.
    + destruct sub; [|discriminate]. exists "", "". reflexivity.
    + cbn [Py.contains] in H.
      apply orb_true_iff in H. destruct H as [H|H].
      * apply starts_true_iff in H. destruct H as [post H].
        exists "", post. exact H.
      * destruct (IH H) as (pre & post & ->).
        exists (String c pre), post. reflexivity.
  - intros (pre & post & ->). induction pre as [|c pre IH].
    + change ("" ++ sub ++ post) with (sub ++ post).
      pose proof (starts_append sub post) as Hs.
      destruct (sub ++ post) as [|c t].
      * exact Hs.
      * cbn [Py.contains]. rewrite Hs. reflexivity.
    + change (String c pre ++ sub ++ post) with (String c (pre ++ sub ++ post)).
      cbn [Py.contains]. rewrite IH. apply orb_true_r.
Qed.

Lemma replace_from_skip (old new p s : string) :
  Py.replace_from old new (String.length p) (p ++ s)
  = Py.replace_from old new 0 s.
Proof.
  induction p as [|a p IH]; simpl; [reflexivity | exact IH].
Qed.

(** Where [old] starts, [replace] writes [new] and goes on after [old]. *)
Lemma replace_at_match (old new s : string) :
  old <> "" -> Py.replace old new (old ++ s) = new ++ Py.replace old new s.
Proof.
  destruct old as [|a old]; [now intros [] |]. intros _.
  unfold Py.replace.
  change (String a old ++ s) with (String a (old ++ s)).
  cbn [Py.replace_from].
  change (String a (old ++ s)) with (String a old ++ s).
  rewrite starts_append.
  replace (String.length (String a old) - 1) with (String.length old)
    by (cbn [String.length]; lia).
  rewrite replace_from_skip. reflexivity.
Qed.

(** Where [old] does not start, [replace] copies one character. *)
Lemma replace_at_mismatch (old new : string) (c : ascii) (s : string) :
  old <> "" -> Py.starts old (String c s) = false ->
  Py.replace old new (String c s) = String c (Py.replace old new s).
Proof.
  destruct old as [|a old]; [now intros [] |]. intros _ H.
  unfold Py.replace. cbn [Py.replace_from]. rewrite H. reflexivity.
Qed.

Lemma replace_empty (old new : string) :
  old <> "" -> Py.replace old new "" = "".
Proof.
  destruct old; [now intros [] | reflexivity].
Qed.

(** With one character for [old] and one for [new], [replace] works
    character by character. *)
Lemma replace_char (a b c : ascii) (s : string) :
  Py.replace (String a "") (String b "") (String c s)
  = String (if Ascii.eqb a c then b else c)
      (Py.replace (String a "") (String b "") s).
Proof.
  unfold Py.replace. cbn [Py.replace_from Py.starts String.length Nat.sub].
  rewrite andb_true_r. destruct (Ascii.eqb a c); reflexivity.
Qed.

(** Replacing [a] by [b] does not change where a pattern without [a] and
    [b] starts. *)
Lemma starts_replace_char (a b : ascii) (p : string) :
  Py.contains (String a "") p = false ->
  Py.contains (String b "") p = false ->
  forall s,
    Py.starts p (Py.replace (String a "") (String b "") s) = Py.starts p s.
Proof.
  induction p as [|x p IH]; intros Ha Hb s; [reflexivity|].
  cbn [Py.contains Py.starts] in Ha, Hb.
  rewrite andb_true_r in Ha, Hb.
  apply orb_false_iff in Ha. destruct Ha as [Hax Ha].
  apply orb_false_iff in Hb. destruct Hb as [Hbx Hb].
  destruct s as [|c s]; [reflexivity|].
  rewrite replace_char. cbn [Py.starts].
  destruct (Ascii.eqb a c) eqn:Eac.
  - apply Ascii.eqb_eq in Eac. subst c.
    rewrite (Ascii.eqb_sym x b), Hbx, (Ascii.eqb_sym x a), Hax. reflexivity.
  - rewrite (IH Ha Hb). reflexivity.
Qed.

(** The three replacements in a row make the tag of the specification. *)
Lemma tag_underscored (raw : string) :
  Py.replace "+" "_" (Py.replace "%20" "_" (Py.replace " " "_" raw))
  = underscored 0 raw.
Proof.
  remember (String.length raw) as n eqn:Hn.
  assert (Hle : String.length raw <= n) by lia. clear Hn.
  revert raw Hle. induction n as [|n IH]; intros raw Hle.
  - destruct raw; [reflexivity | cbn in Hle; lia].
  - destruct raw as [|c rest]; [reflexivity|].
    destruct (Py.starts "%20" (String c rest)) eqn:Hs.
    + apply starts_true_iff in Hs. destruct Hs as [post Hs].
      cbn [append] in Hs. injection Hs as -> ->.
      rewrite !replace_char. cbn [Ascii.eqb Bool.eqb].
      change (String "%" (String "2" (String "0" (Py.replace " " "_" post))))
        with ("%20" ++ Py.replace " " "_" post).
      rewrite (replace_at_match "%20" "_" (Py.replace " " "_" post))
        by discriminate.
      cbn [append]. rewrite replace_char.
      cbn [Ascii.eqb Bool.eqb underscored Py.starts andb]. f_equal.
      apply IH. cbn [String.length] in Hle. lia.
    + cbn [underscored]. rewrite Hs, replace_char.
      assert (Hrest : String.length rest <= n)
        by (cbn [String.length] in Hle; lia).
      destruct (Ascii.eqb " " c) eqn:Esp.
      * apply Ascii.eqb_eq in Esp. subst c.
        rewrite replace_at_mismatch by (discriminate || reflexivity).
        rewrite replace_char. cbn [Ascii.eqb Bool.eqb orb]. f_equal.
        apply IH. exact Hrest.
      * rewrite replace_at_mismatch; [|discriminate|].
        -- rewrite replace_char, (Ascii.eqb_sym c " "), Esp,
             (Ascii.eqb_sym c "+"). cbn [orb].
           destruct (Ascii.eqb "+" c); f_equal; apply IH; exact Hrest.
        -- change (Ascii.eqb "%" c && Py.starts "20" rest = false) in Hs.
           change (Ascii.eqb "%" c
                   && Py.starts "20" (Py.replace " " "_" rest) = false).
           rewrite (starts_replace_char " " "_" "20" eq_refl eq_refl).
           exact Hs.
Qed.

(** ** Facts about the redirector *)

Lemma getlist_app (d1 d2 : QueryDict) (key : string) :
  getlist (d1 ++ d2)%list key = (getlist d1 key ++ getlist d2 key)%list.
Proof.
  unfold getlist. rewrite filter_app, map_app. reflexivity.
Qed.

Lemma getlist_facets (facets : list string) :
  getlist (map (fun facet => ("selected_facets", facet)) facets)
    "selected_facets" = facets.
Proof.
  induction facets as [|f facets IH]; [reflexivity|].
  unfold getlist in *. simpl. f_equal. exact IH.
Qed.

Lemma getlist_facets_q (facets : list string) :
  getlist (map (fun facet => ("selected_facets", facet)) facets) "q" = [].
Proof.
  induction facets as [|f facets IH]; [reflexivity|].
  unfold getlist in *. simpl. exact IH.
Qed.

Lemma legacy_request_facets (query_text : option string) (facets : list string) :
  getlist (GET (legacy_request query_text facets)) "selected_facets" = facets.
Proof.
  unfold legacy_request. cbn [GET]. rewrite getlist_app, getlist_facets.
  destruct query_text; reflexivity.
Qed.

Lemma legacy_request_q (query_text : option string) (facets : list string) :
  get (GET (legacy_request query_text facets)) "q" = query_text.
Proof.
  unfold legacy_request, get. cbn [GET]. rewrite getlist_app, getlist_facets_q.
  destruct query_text; reflexivity.
Qed.

(** The view reads nothing of the request but [q] and [selected_facets]. *)
Lemma redirect_ask_search_resolve (request : HttpRequest) (language : string) :
  redirect_ask_search request language
  = resolve_redirect (get (GET request) "q")
      (getlist (GET request) "selected_facets") language.
Proof.
  unfold resolve_redirect, redirect_ask_search.
  rewrite legacy_request_q, legacy_request_facets. reflexivity.
Qed.

Lemma resolve_redirect_query (q : string) (facets : list string)
  (language : string) :
  Py.truthy q = true ->
  resolve_redirect (Some q) facets language
  = if Py.truthy (Py.strip q)
    then Return (redirect ("/ask-cfpb/search/?q=" ++ Py.strip q) true)
    else Return (redirect "/ask-cfpb/search/" true).
Proof.
  intro Hq. unfold resolve_redirect, redirect_ask_search.
  rewrite legacy_request_q. cbn [Py.truthy_opt]. rewrite Hq.
  destruct (Py.truthy (Py.strip q)); reflexivity.
Qed.

Lemma resolve_redirect_no_query (query_text : option string)
  (facets : list string) (language : string) :
  Py.truthy_opt query_text = false ->
  resolve_redirect query_text facets language
  = if no_leading_facet facets
    then Return (redirect "/ask-cfpb/search/" true)
    else facet_redirects facets language.
Proof.
  intro Hq. unfold resolve_redirect, redirect_ask_search.
  rewrite legacy_request_q, legacy_request_facets, Hq. reflexivity.
Qed.

(** A loop returns the handler's answer on the first non-empty value. *)
Lemma scan_facets_first_value {A : Type} (marker : string)
  (handler : string -> A) (facets : list string) :
  scan_facets marker handler facets
  = option_map handler (first_value marker facets).
Proof.
  induction facets as [|facet rest IH]; [reflexivity|].
  cbn [scan_facets first_value]. unfold facet_value.
  destruct (Py.contains marker facet); [|exact IH].
  cbv zeta. destruct (Py.truthy (Py.replace marker "" facet)); [reflexivity|].
  exact IH.
Qed.

Lemma first_value_none_iff (marker : string) (facets : list string) :
  first_value marker facets = None
  <-> forall facet, In facet facets -> facet_value marker facet = None.
Proof.
  induction facets as [|f rest IH]; cbn [first_value].
  - split; [intros _ facet [] | reflexivity].
  - destruct (facet_value marker f) eqn:E.
    + split; [discriminate|]. intro H.
      rewrite (H f (or_introl eq_refl)) in E. discriminate.
    + rewrite IH. split.
      * intros H facet [<-|Hin]; [exact E | exact (H facet Hin)].
      * intros H facet Hin. apply H. right. exact Hin.
Qed.

(** Facets without a value before the first one that has one are passed
    over. *)
Lemma first_value_app (marker : string) (pre : list string) (facet : string)
  (post : list string) (value : string) :
  (forall f, In f pre -> facet_value marker f = None) ->
  facet_value marker facet = Some value ->
  first_value marker (pre ++ facet :: post)%list = Some value.
Proof.
  intros Hpre Hf. induction pre as [|f pre IH]; cbn [app first_value].
  - rewrite Hf. reflexivity.
  - rewrite (Hpre f (or_introl eq_refl)). apply IH.
    intros g Hg. apply Hpre. right. exact Hg.
Qed.

Lemma first_value_split (marker : string) (facets : list string)
  (value : string) :
  first_value marker facets = Some value ->
  exists pre facet post,
    facets = (pre ++ facet :: post)%list
    /\ (forall f, In f pre -> facet_value marker f = None)
    /\ facet_value marker facet = Some value.
Proof.
  induction facets as [|f rest IH]; cbn [first_value]; [discriminate|].
  destruct (facet_value marker f) as [v|] eqn:E.
  - intro H. injection H as ->. exists [], f, rest.
    split; [reflexivity|]. split; [intros g []|exact E].
  - intro H. destruct (IH H) as (pre & facet & post & -> & Hpre & Hf).
    exists (f :: pre), facet, post. split; [reflexivity|].
    split; [|exact Hf].
    intros g [<-|Hg]; [exact E | exact (Hpre g Hg)].
Qed.

Lemma first_value_present (marker : string) (facets : list string)
  (facet value : string) :
  In facet facets -> facet_value marker facet = Some value ->
  exists first, first_value marker facets = Some first.
Proof.
  intros Hin Hf. destruct (first_value marker facets) as [v|] eqn:E.
  - exists v. reflexivity.
  - rewrite first_value_none_iff in E. rewrite (E facet Hin) in Hf.
    discriminate.
Qed.

(** The three loops, by the first value of each facet type. *)
Lemma facet_redirects_first_value (facets : list string) (language : string) :
  facet_redirects facets language
  = match first_value category_facet facets with
    | Some category =>
        Return (redirect_to_category (slugify category) language)
    | None =>
        match first_value audience_facet facets with
        | Some audience_raw =>
            Return
              (redirect_to_audience (slugify (Py.replace "+" "-" audience_raw)))
        | None =>
            match first_value tag_facet facets with
            | Some raw_tag =>
                Return
                  (redirect_to_tag
                     (Py.replace "+" "_"
                        (Py.replace "%20" "_" (Py.replace " " "_" raw_tag)))
                     language)
            | None => Raise Http404
            end
        end
    end.
Proof.
  unfold facet_redirects. rewrite !scan_facets_first_value.
  destruct (first_value category_facet facets); [reflexivity|].
  destruct (first_value audience_facet facets); [reflexivity|].
  destruct (first_value tag_facet facets); reflexivity.
Qed.

Lemma no_leading_facet_false_iff (facets : list string) :
  no_leading_facet facets = false
  <-> exists first rest, facets = first :: rest /\ first <> "".
Proof.
  destruct facets as [|first rest]; cbn [no_leading_facet].
  - split; [discriminate | intros (f & r & H & _); discriminate].
  - rewrite negb_false_iff, truthy_true_iff. split.
    + intro H. exists first, rest. split; [reflexivity | exact H].
    + intros (f & r & H & Hne). injection H as -> ->. exact Hne.
Qed.

Lemma facet_value_non_empty (marker facet value : string) :
  facet_value marker facet = Some value ->
  Py.contains marker facet = true
  /\ value = Py.replace marker "" facet /\ value <> "".
Proof.
  unfold facet_value. destruct (Py.contains marker facet); [|discriminate].
  cbv zeta. destruct (Py.truthy (Py.replace marker "" facet)) eqn:E;
    [|discriminate].
  intro H. injection H as <-. apply truthy_true_iff in E. auto.
Qed.

(** ** The legacy facet redirector *)

(** C2, as amended.  Without query text the view raises [Http404] exactly
    when the facet list is not empty, its first element is not empty, and no
    facet carries a non-empty value for any of the three markers.  An empty
    list, or an empty first element, gives the permanent redirect to the
    bare search page. *)
Theorem C2_not_found_iff (query_text : option string) (facets : list string)
  (language : string) :
  Py.truthy_opt query_text = false ->
  (resolve_redirect query_text facets language = Raise Http404
   <-> no_leading_facet facets = false
       /\ forall facet, In facet facets ->
            facet_value category_facet facet = None
            /\ facet_value audience_facet facet = None
            /\ facet_value tag_facet facet = None)
  /\ (no_leading_facet facets = true ->
      resolve_redirect query_text facets language
      = Return (HttpResponsePermanentRedirect "/ask-cfpb/search/")).
Proof.
  intro Hq. rewrite (resolve_redirect_no_query _ _ _ Hq).
  destruct (no_leading_facet facets) eqn:Hlead.
  - split; [|reflexivity].
    split; [discriminate | intros [H _]; discriminate].
  - split; [|discriminate].
    rewrite facet_redirects_first_value. split.
    + intro H. split; [reflexivity|].
      destruct (first_value category_facet facets) eqn:Ec; [discriminate|].
      destruct (first_value audience_facet facets) eqn:Ea; [discriminate|].
      destruct (first_value tag_facet facets) eqn:Et; [discriminate|].
      rewrite first_value_none_iff in Ec, Ea, Et.
      intros facet Hin. auto.
    + intros [_ H].
      assert (Hm : forall marker,
                 (forall facet, In facet facets -> facet_value marker facet = None) ->
                 first_value marker facets = None)
        by (intros marker Hnone; apply first_value_none_iff; exact Hnone).
      rewrite (Hm category_facet), (Hm audience_facet), (Hm tag_facet);
        [reflexivity | | | ]; intros facet Hin; apply (H facet Hin).
Qed.

(** C3, as amended.  Without query text, and with a facet list whose first
    element is not empty, a facet with a non-empty category value anywhere
    in the list gives the category redirect, whatever tag facets the list
    holds and wherever they stand. *)
Theorem C3_category_beats_tag (query_text : option string)
  (facets : list string) (language : string)
  (category_f category_v tag_f tag_v : string) :
  Py.truthy_opt query_text = false ->
  no_leading_facet facets = false ->
  In category_f facets ->
  facet_value category_facet category_f = Some category_v ->
  In tag_f facets ->
  facet_value tag_facet tag_f = Some tag_v ->
  exists category,
    first_value category_facet facets = Some category
    /\ resolve_redirect query_text facets language
       = Return (redirect_to_category (slugify category) language).
Proof.
  intros Hq Hlead Hc Hcv _ _.
  destruct (first_value_present _ _ _ _ Hc Hcv) as [category Hfirst].
  exists category. split; [exact Hfirst|].
  rewrite (resolve_redirect_no_query _ _ _ Hq), Hlead.
  rewrite facet_redirects_first_value, Hfirst. reflexivity.
Qed.

(** C4, as amended.  Without query text, and with a facet list whose first
    element is not empty, each of the three loops takes the first facet of
    its type whose value is not empty: facets of the type that come before
    it with an empty value are passed over, for category and tag as for
    audience.  So the first non-empty category value gives the category
    redirect; when no facet has a category value, the first non-empty
    audience value gives the audience redirect; and when no facet has a
    category or an audience value, the first non-empty tag value gives the
    tag redirect. *)
Theorem C4_first_non_empty_value (query_text : option string)
  (pre : list string) (facet : string) (post : list string)
  (value language : string) :
  Py.truthy_opt query_text = false ->
  no_leading_facet (pre ++ facet :: post)%list = false ->
  ((forall f, In f pre -> facet_value category_facet f = None) ->
   facet_value category_facet facet = Some value ->
   resolve_redirect query_text (pre ++ facet :: post)%list language
   = Return (redirect_to_category (slugify value) language))
  /\ ((forall f, In f (pre ++ facet :: post)%list ->
         facet_value category_facet f = None) ->
      (forall f, In f pre -> facet_value audience_facet f = None) ->
      facet_value audience_facet facet = Some value ->
      resolve_redirect query_text (pre ++ facet :: post)%list language
      = Return (redirect_to_audience (slugify (Py.replace "+" "-" value))))
  /\ ((forall f, In f (pre ++ facet :: post)%list ->
         facet_value category_facet f = None
         /\ facet_value audience_facet f = None) ->
      (forall f, In f pre -> facet_value tag_facet f = None) ->
      facet_value tag_facet facet = Some value ->
      resolve_redirect query_text (pre ++ facet :: post)%list language
      = Return
          (redirect_to_tag
             (Py.replace "+" "_"
                (Py.replace "%20" "_" (Py.replace " " "_" value)))
             language)).
Proof.
  intros Hq Hlead.
  rewrite (resolve_redirect_no_query _ _ _ Hq), Hlead.
  rewrite facet_redirects_first_value.
  split; [|split].
  - intros Hpre Hf. rewrite (first_value_app _ _ _ _ _ Hpre Hf). reflexivity.
  - intros Hcat Hpre Hf.
    rewrite (proj2 (first_value_none_iff _ _) Hcat).
    rewrite (first_value_app _ _ _ _ _ Hpre Hf). reflexivity.
  - intros Hnone Hpre Hf.
    rewrite (proj2 (first_value_none_iff category_facet _)
               (fun f Hin => proj1 (Hnone f Hin))).
    rewrite (proj2 (first_value_none_iff audience_facet _)
               (fun f Hin => proj2 (Hnone f Hin))).
    rewrite (first_value_app _ _ _ _ _ Hpre Hf). reflexivity.
Qed.

(** C5, as amended.  A non-empty query text is trimmed of the whitespace
    around it; if something is left, the view redirects permanently to the
    search page with the trimmed text as the query, and if nothing is left,
    to the bare search page, whatever the facets and the language. *)
Theorem C5_query_redirects (q : string) (facets : list string)
  (language : string) :
  Py.truthy q = true ->
  (Py.strip q <> "" ->
   resolve_redirect (Some q) facets language
   = Return
       (HttpResponsePermanentRedirect ("/ask-cfpb/search/?q=" ++ Py.strip q)))
  /\ (Py.strip q = "" ->
      resolve_redirect (Some q) facets language
      = Return (HttpResponsePermanentRedirect "/ask-cfpb/search/"))
  /\ resolve_redirect (Some "rate limits") [] "en"
     = Return (HttpResponsePermanentRedirect "/ask-cfpb/search/?q=rate limits").
Proof.
  intro Hq. rewrite (resolve_redirect_query _ _ _ Hq).
  split; [|split].
  - intro H. apply truthy_true_iff in H. rewrite H. reflexivity.
  - intro H. rewrite H. reflexivity.
  - reflexivity.
Qed.

(** C6, as amended.  Without query text, with a facet list whose first
    element is not empty and in which no facet carries a category or an
    audience value, the first non-empty tag value decides: every space,
    every [%20] and every [+] of it becomes an underscore, nothing else is
    changed, and the result goes into the Spanish tag URL for language [es]
    and into the English one otherwise, as a permanent redirect. *)
Theorem C6_tag_redirect (query_text : option string) (facets : list string)
  (language raw_tag : string) :
  Py.truthy_opt query_text = false ->
  no_leading_facet facets = false ->
  (forall f, In f facets ->
     facet_value category_facet f = None
     /\ facet_value audience_facet f = None) ->
  first_value tag_facet facets = Some raw_tag ->
  resolve_redirect query_text facets language
  = Return
      (HttpResponsePermanentRedirect
         ((if String.eqb language "es"
           then "/es/obtener-respuestas/buscar-por-etiqueta/"
           else "/ask-cfpb/search-by-tag/")
          ++ Py.replace "+" "_"
               (Py.replace "%20" "_" (Py.replace " " "_" raw_tag))
          ++ "/"))
  /\ Py.replace "+" "_" (Py.replace "%20" "_" (Py.replace " " "_" raw_tag))
     = underscored 0 raw_tag
  /\ resolve_redirect None ["tag_exact:pay day loan"] "es"
     = Return
         (HttpResponsePermanentRedirect
            "/es/obtener-respuestas/buscar-por-etiqueta/pay_day_loan/").
Proof.
  intros Hq Hlead Hnone Htag.
  split; [|split; [apply tag_underscored | reflexivity]].
  rewrite (resolve_redirect_no_query _ _ _ Hq), Hlead.
  rewrite facet_redirects_first_value.
  rewrite (proj2 (first_value_none_iff category_facet _)
             (fun f Hin => proj1 (Hnone f Hin))).
  rewrite (proj2 (first_value_none_iff audience_facet _)
             (fun f Hin => proj2 (Hnone f Hin))).
  rewrite Htag. unfold redirect_to_tag.
  destruct (String.eqb language "es"); reflexivity.
Qed.

(** C7, as amended.  Without query text, with a facet list whose first
    element is not empty and in which no facet carries a category value, the
    first non-empty audience value decides: its [+] become hyphens, the
    result is slugified and goes into the English audience URL as a
    permanent redirect, whatever the language.  A facet list of
    [audience_exact:service+members] and an empty category facet goes to the
    audience page of [service-members]. *)
Theorem C7_audience_redirect (query_text : option string)
  (facets : list string) (language audience_raw : string) :
  Py.truthy_opt query_text = false ->
  no_leading_facet facets = false ->
  (forall f, In f facets -> facet_value category_facet f = None) ->
  first_value audience_facet facets = Some audience_raw ->
  resolve_redirect query_text facets language
  = Return
      (HttpResponsePermanentRedirect
         ("/ask-cfpb/audience-"
          ++ slugify (Py.replace "+" "-" audience_raw) ++ "/"))
  /\ (slugify "service-members" = "service-members" ->
      resolve_redirect None
        ["audience_exact:service+members"; "category_exact:"] "en"
      = Return
          (HttpResponsePermanentRedirect "/ask-cfpb/audience-service-members/")).
Proof.
  intros Hq Hlead Hnone Haud. split.
  - rewrite (resolve_redirect_no_query _ _ _ Hq), Hlead.
    rewrite facet_redirects_first_value.
    rewrite (proj2 (first_value_none_iff category_facet _) Hnone).
    rewrite Haud. reflexivity.
  - intro Hslug.
    rewrite (resolve_redirect_no_query None _ _ eq_refl).
    rewrite facet_redirects_first_value.
    change (Return (redirect_to_audience (slugify "service-members"))
            = Return
                (HttpResponsePermanentRedirect
                   "/ask-cfpb/audience-service-members/") :> result HttpResponse).
    rewrite Hslug. reflexivity.
Qed.

(** C10.  A facet counts for a facet type exactly when the type's marker
    occurs anywhere in it, at its head or not, and the value that goes into
    the redirect is the facet with each occurrence of the marker taken out,
    from left to right: so in each loop, over any list, and so in the
    redirect for a list of one facet. *)
Theorem C10_marker_anywhere (facet language : string) :
  (forall marker,
     Py.contains marker facet = true
     <-> exists pre post, facet = pre ++ marker ++ post)
  /\ (forall marker rest,
        marker <> "" ->
        Py.replace marker "" (marker ++ rest) = Py.replace marker "" rest)
  /\ (forall marker c rest,
        marker <> "" -> Py.starts marker (String c rest) = false ->
        Py.replace marker "" (String c rest)
        = String c (Py.replace marker "" rest))
  /\ (forall (A : Type) marker (handler : string -> A) rest,
        Py.contains marker facet = true ->
        Py.replace marker "" facet <> "" ->
        scan_facets marker handler (facet :: rest)
        = Some (handler (Py.replace marker "" facet)))
  /\ (forall (A : Type) marker (handler : string -> A) rest,
        Py.contains marker facet = false ->
        scan_facets marker handler (facet :: rest)
        = scan_facets marker handler rest)
  /\ (Py.contains category_facet facet = true ->
      Py.replace category_facet "" facet <> "" ->
      resolve_redirect None [facet] language
      = Return
          (redirect_to_category
             (slugify (Py.replace category_facet "" facet)) language))
  /\ (facet_value category_facet facet = None ->
      Py.contains audience_facet facet = true ->
      Py.replace audience_facet "" facet <> "" ->
      resolve_redirect None [facet] language
      = Return
          (redirect_to_audience
             (slugify (Py.replace "+" "-" (Py.replace audience_facet "" facet)))))
  /\ (facet_value category_facet facet = None ->
      facet_value audience_facet facet = None ->
      Py.contains tag_facet facet = true ->
      Py.replace tag_facet "" facet <> "" ->
      resolve_redirect None [facet] language
      = Return
          (redirect_to_tag
             (Py.replace "+" "_"
                (Py.replace "%20" "_"
                   (Py.replace " " "_" (Py.replace tag_facet "" facet))))
             language)).
Proof.
  assert (Hvalue : forall marker,
             Py.contains marker facet = true ->
             Py.replace marker "" facet <> "" ->
             facet_value marker facet = Some (Py.replace marker "" facet)).
  { intros marker Hin Hne. unfold facet_value. rewrite Hin. cbv zeta.
    apply truthy_true_iff in Hne. rewrite Hne. reflexivity. }
  assert (Hlead : forall marker,
             Py.replace marker "" facet <> "" ->
             no_leading_facet [facet] = false).
  { intros marker Hne. destruct facet as [|c facet]; [|reflexivity].
    elim Hne. destruct marker; reflexivity. }
  split; [intro marker; apply contains_true_iff|].
  split; [intros marker rest Hm; rewrite (replace_at_match _ _ _ Hm);
          reflexivity|].
  split; [intros marker c rest Hm Hs; apply replace_at_mismatch; assumption|].
  split.
  { intros A marker handler rest Hin Hne. cbn [scan_facets]. rewrite Hin.
    cbv zeta. apply truthy_true_iff in Hne. rewrite Hne. reflexivity. }
  split.
  { intros A marker handler rest Hin. cbn [scan_facets]. rewrite Hin.
    reflexivity. }
  split; [|split].
  - intros Hin Hne.
    rewrite (resolve_redirect_no_query None _ _ eq_refl), (Hlead _ Hne).
    rewrite facet_redirects_first_value. cbn [first_value].
    rewrite (Hvalue _ Hin Hne). reflexivity.
  - intros Hcat Hin Hne.
    rewrite (resolve_redirect_no_query None _ _ eq_refl), (Hlead _ Hne).
    rewrite facet_redirects_first_value. cbn [first_value].
    rewrite Hcat, (Hvalue _ Hin Hne). reflexivity.
  - intros Hcat Haud Hin Hne.
    rewrite (resolve_redirect_no_query None _ _ eq_refl), (Hlead _ Hne).
    rewrite facet_redirects_first_value. cbn [first_value].
    rewrite Hcat, Haud, (Hvalue _ Hin Hne). reflexivity.
Qed.

(** ** The link annotator *)

Lemma objects_get_none {A : Type} (p : A -> bool) (table : list A) :
  objects_get p table = Raise DoesNotExist
  <-> forall row, In row table -> p row = false.
Proof.
  unfold objects_get. split.
  - intros H row Hin. destruct (p row) eqn:E; [|reflexivity].
    assert (Hf : In row (filter p table)) by (apply filter_In; auto).
    destruct (filter p table) as [|r1 [|r2 l]]; [destruct Hf | discriminate..].
  - intro H. assert (Hnil : filter p table = []).
    { induction table as [|r table IH]; [reflexivity|].
      cbn [filter]. rewrite (H r (or_introl eq_refl)). apply IH.
      intros row Hin. apply H. right. exact Hin. }
    rewrite Hnil. reflexivity.
Qed.

Lemma objects_get_raises {A : Type} (p : A -> bool) (table : list A)
  (e : exception) :
  objects_get p table = Raise e ->
  e = DoesNotExist \/ e = MultipleObjectsReturned.
Proof.
  unfold objects_get. destruct (filter p table) as [|r1 [|r2 l]]; intro H.
  - left. congruence.
  - discriminate.
  - right. congruence.
Qed.

Lemma objects_get_returns {A : Type} (p : A -> bool) (table : list A)
  (row : A) :
  objects_get p table = Return row -> In row table /\ p row = true.
Proof.
  unfold objects_get. destruct (filter p table) as [|r1 [|r2 l]] eqn:E;
    intro H; try discriminate.
  injection H as <-. apply filter_In. rewrite E. left. reflexivity.
Qed.

Lemma destinations_nil_iff (links : list PageElement) :
  destinations links = []
  <-> forall link, In link links -> destination link = None.
Proof.
  induction links as [|l links IH]; cbn [destinations].
  - split; [intros _ link [] | reflexivity].
  - destruct (destination l) eqn:E.
    + split; [discriminate|]. intro H.
      rewrite (H l (or_introl eq_refl)) in E. discriminate.
    + rewrite IH. split.
      * intros H link [<-|Hin]; [exact E | exact (H link Hin)].
      * intros H link Hin. apply H. right. exact Hin.
Qed.

(** One turn of the loop on an anchor without a destination changes
    nothing. *)
Lemma annotate_loop_skip (_site : Site) (link : PageElement)
  (rest : list PageElement) (st : annotation) :
  destination link = None ->
  annotate_loop _site (link :: rest) st = annotate_loop _site rest st.
Proof.
  unfold destination. intro H. destruct st as [[soup footnotes] index].
  cbn [annotate_loop]. destruct (tag_get link "href") as [href|]; [|reflexivity].
  destruct (Py.truthy href); [discriminate | reflexivity].
Qed.

(** One turn of the loop on an anchor with a destination. *)
Lemma annotate_loop_step (_site : Site) (link : PageElement)
  (rest : list PageElement) (soup : PageElement)
  (footnotes : list (nat * string)) (index : nat) (href : string) :
  destination link = Some href ->
  annotate_loop _site (link :: rest) (soup, footnotes, index)
  = match urljoin (root_url _site) href with
    | None => Raise ValueError
    | Some url =>
        annotate_loop _site rest
          (insert_after (ident_of link)
             (new_tag soup "sup" (Py.str_of_nat index)) soup,
           (footnotes ++ [(index, url)])%list, index + 1)
    end.
Proof.
  unfold destination. intro H. cbn [annotate_loop].
  destruct (tag_get link "href") as [h|]; [|discriminate].
  destruct (Py.truthy h); [|discriminate].
  injection H as ->. reflexivity.
Qed.

(** What the loop adds to the footnotes: the resolved destinations of the
    anchors that have one, numbered from the index it started with. *)
Lemma annotate_loop_footnotes (_site : Site) (links : list PageElement) :
  forall soup footnotes index soup' footnotes' index',
    annotate_loop _site links (soup, footnotes, index)
    = Return (soup', footnotes', index') ->
    exists urls,
      map (urljoin (root_url _site)) (destinations links) = map Some urls
      /\ footnotes'
         = (footnotes ++ combine (seq index (List.length urls)) urls)%list
      /\ index' = index + List.length urls.
Proof.
  induction links as [|link rest IH]; intros soup footnotes index soup'
    footnotes' index' H.
  - cbn [annotate_loop] in H. injection H as <- <- <-.
    exists []. cbn. rewrite app_nil_r, Nat.add_0_r. auto.
  - destruct (destination link) as [href|] eqn:E.
    + rewrite (annotate_loop_step _ _ _ _ _ _ _ E) in H.
      destruct (urljoin (root_url _site) href) as [url|] eqn:U;
        [|discriminate].
      destruct (IH _ _ _ _ _ _ H) as (urls & Hurls & Hfn & Hidx).
      exists (url :: urls). cbn [destinations]. rewrite E.
      cbn [map List.length seq combine]. rewrite U, Hurls.
      split; [reflexivity|]. split.
      * rewrite Hfn, <- app_assoc, Nat.add_1_r. reflexivity.
      * lia.
    + rewrite (annotate_loop_skip _ _ _ _ E) in H.
      destruct (IH _ _ _ _ _ _ H) as (urls & Hurls & Hfn & Hidx).
      exists urls. cbn [destinations]. rewrite E. auto.
Qed.

(** The loop raises nothing but the resolver's [ValueError]. *)
Lemma annotate_loop_raises (_site : Site) (links : list PageElement) :
  forall st e, annotate_loop _site links st = Raise e -> e = ValueError.
Proof.
  induction links as [|link rest IH]; intros [[soup footnotes] index] e H.
  - discriminate.
  - destruct (destination link) as [href|] eqn:E.
    + rewrite (annotate_loop_step _ _ _ _ _ _ _ E) in H.
      destruct (urljoin (root_url _site) href); [exact (IH _ _ H)|].
      congruence.
    + rewrite (annotate_loop_skip _ _ _ _ E) in H. exact (IH _ _ H).
Qed.

(** Without destinations the loop leaves the document, the footnotes and
    the index as they were. *)
Lemma annotate_loop_no_destination (_site : Site) (links : list PageElement)
  (st : annotation) :
  (forall link, In link links -> destination link = None) ->
  annotate_loop _site links st = Return st.
Proof.
  induction links as [|link rest IH]; intro H; [reflexivity|].
  rewrite (annotate_loop_skip _ _ _ _ (H link (or_introl eq_refl))).
  apply IH. intros l Hin. apply H. right. exact Hin.
Qed.

Lemma combine_seq_fst {A : Type} (start : nat) (l : list A) :
  map fst (combine (seq start (List.length l)) l) = seq start (List.length l).
Proof.
  revert start. induction l as [|a l IH]; intro start; [reflexivity|].
  cbn. f_equal. apply IH.
Qed.

Lemma combine_seq_snd {A : Type} (start : nat) (l : list A) :
  map snd (combine (seq start (List.length l)) l) = l.
Proof.
  revert start. induction l as [|a l IH]; intro start; [reflexivity|].
  cbn. f_equal. apply IH.
Qed.

(** C1.  When [annotate_links] returns, there is a default site, and the
    footnotes are, one for one and in document order, the anchors with a
    non-empty destination: their indices are 1, 2, ..., N and each URL is
    what the resolver gives for the site's root URL and the anchor's
    destination.  Anchors without a destination, or with an empty one, take
    no index. *)
Theorem C1_footnotes_number_links (sites : list Site)
  (answer_text html : string) (footnotes : list (nat * string)) :
  annotate_links sites answer_text = Return (html, footnotes) ->
  exists _site,
    objects_get is_default_site sites = Return _site
    /\ List.length footnotes
       = List.length (destinations (findAll "a" (bs answer_text)))
    /\ map fst footnotes
       = seq 1 (List.length (destinations (findAll "a" (bs answer_text))))
    /\ map (fun footnote => Some (snd footnote)) footnotes
       = map (urljoin (root_url _site))
           (destinations (findAll "a" (bs answer_text))).
Proof.
  unfold annotate_links. intro H.
  destruct (objects_get is_default_site sites) as [_site|e] eqn:Hsite.
  - exists _site. split; [reflexivity|].
    cbn [try_except bind] in H.
    destruct (annotate_loop _site (findAll "a" (bs answer_text))
                (bs answer_text, [], 1)) as [[[soup' fns] index']|e] eqn:Hloop;
      cbn [bind] in H; [|discriminate].
    injection H as _ <-.
    destruct (annotate_loop_footnotes _ _ _ _ _ _ _ _ Hloop)
      as (urls & Hurls & Hfn & _).
    cbn [app] in Hfn. subst fns.
    assert (Hlen : List.length (destinations (findAll "a" (bs answer_text)))
                   = List.length urls).
    { rewrite <- (length_map (urljoin (root_url _site))), Hurls.
      apply length_map. }
    rewrite Hlen. split; [|split].
    + rewrite length_combine, length_seq. apply Nat.min_id.
    + apply combine_seq_fst.
    + rewrite Hurls, <- (map_map snd Some), combine_seq_snd. reflexivity.
  - cbn [try_except] in H.
    destruct (exception_eqb e DoesNotExist); discriminate.
Qed.

(** C8.  [annotate_links] raises its configuration error exactly when no
    site is marked as the default one, whatever the text; it then returns
    neither markup nor footnotes. *)
Theorem C8_configuration_error (sites : list Site) (answer_text : string) :
  (annotate_links sites answer_text
   = Raise (RuntimeError "no default wagtail site configured")
   <-> forall site, In site sites -> is_default_site site = false)
  /\ ((forall site, In site sites -> is_default_site site = false) ->
      forall r, annotate_links sites answer_text <> Return r).
Proof.
  assert (Hfail : (forall site, In site sites -> is_default_site site = false) ->
                  annotate_links sites answer_text
                  = Raise (RuntimeError "no default wagtail site configured")).
  { intro H. apply objects_get_none in H.
    unfold annotate_links. rewrite H. reflexivity. }
  split; [split|].
  - intro H. apply objects_get_none. unfold annotate_links in H.
    destruct (objects_get is_default_site sites) as [_site|e] eqn:Hsite.
    + cbn [try_except bind] in H.
      destruct (annotate_loop _site (findAll "a" (bs answer_text))
                  (bs answer_text, [], 1)) as [[[soup' fns] index']|e]
        eqn:Hloop; cbn [bind] in H; [discriminate|].
      apply annotate_loop_raises in Hloop. congruence.
    + destruct (objects_get_raises _ _ _ Hsite) as [->| ->];
        [reflexivity | discriminate].
  - exact Hfail.
  - intros H r Hr. rewrite (Hfail H) in Hr. discriminate.
Qed.

(** C9.  With a default site, a text none of whose anchors has a non-empty
    destination comes back as the markup of its own parse, with no
    footnote: the loop hands the parsed document on untouched. *)
Theorem C9_no_links_unchanged (sites : list Site) (_site : Site)
  (answer_text : string) :
  objects_get is_default_site sites = Return _site ->
  (forall link,
     In link (findAll "a" (bs answer_text)) -> destination link = None) ->
  annotate_loop _site (findAll "a" (bs answer_text)) (bs answer_text, [], 1)
  = Return (bs answer_text, [], 1)
  /\ annotate_links sites answer_text
     = Return (soup_str (bs answer_text), []).
Proof.
  intros Hsite Hnone.
  pose proof (annotate_loop_no_destination _site _ (bs answer_text, [], 1)
                Hnone) as Hloop.
  split; [exact Hloop|].
  unfold annotate_links. rewrite Hsite. cbn [try_except bind].
  rewrite Hloop. reflexivity.
Qed.

(** ** More on the redirector *)

Lemma getlist_other_key (d1 d2 : QueryDict) (k v key : string) :
  k <> key ->
  getlist (d1 ++ (k, v) :: d2)%list key = getlist (d1 ++ d2)%list key.
Proof.
  intro Hk. rewrite !getlist_app. f_equal.
  unfold getlist. cbn [filter fst].
  destruct (String.eqb k key) eqn:E; [|reflexivity].
  apply String.eqb_eq in E. contradiction.
Qed.

Lemma facet_redirects_language (facets : list string) (language : string) :
  language <> "es" ->
  facet_redirects facets language = facet_redirects facets "en".
Proof.
  intro H. apply String.eqb_neq in H.
  rewrite !facet_redirects_first_value.
  unfold redirect_to_category, redirect_to_tag. rewrite H. reflexivity.
Qed.

(** A character that [underscored] writes is an underscore or a character
    of the raw value, so a pattern without underscore that starts in the
    result starts in the raw value. *)
Lemma starts_underscored (p : string) :
  Py.contains "_" p = false ->
  p <> "" ->
  forall raw,
    Py.starts p (underscored 0 raw) = true -> Py.starts p raw = true.
Proof.
  induction p as [|a p IH]; intros Hp Hne raw H; [now elim Hne|].
  cbn [Py.contains Py.starts] in Hp. rewrite andb_true_r in Hp.
  apply orb_false_iff in Hp. destruct Hp as [Ha Hp].
  destruct raw as [|c rest]; [discriminate H|].
  cbn [underscored] in H.
  assert (Hunder : forall t, Py.starts (String a p) (String "_" t) = false).
  { intro t. cbn [Py.starts]. rewrite (Ascii.eqb_sym a "_"), Ha. reflexivity. }
  destruct (Py.starts "%20" (String c rest));
    [rewrite Hunder in H; discriminate|].
  destruct (Ascii.eqb c " " || Ascii.eqb c "+");
    [rewrite Hunder in H; discriminate|].
  cbn [Py.starts] in H |- *.
  apply andb_true_iff in H. destruct H as [Hac H]. rewrite Hac. cbn [andb].
  destruct p as [|b p]; [reflexivity|].
  apply IH; [exact Hp | discriminate | exact H].
Qed.

(** The tag has no space and no plus sign left. *)
Lemma underscored_no_char (ch : ascii) (raw : string) :
  ch = " "%char \/ ch = "+"%char ->
  forall skip, Py.contains (String ch "") (underscored skip raw) = false.
Proof.
  intro Hch.
  assert (Hu : Ascii.eqb ch "_" = false) by (destruct Hch; subst; reflexivity).
  induction raw as [|c rest IH]; intro skip; [reflexivity|].
  cbn [underscored]. destruct skip as [|k]; [|apply IH].
  assert (Hunder : forall t,
             Py.contains (String ch "") t = false ->
             Py.contains (String ch "") (String "_" t) = false).
  { intros t Ht. cbn [Py.contains Py.starts]. rewrite Hu, Ht. reflexivity. }
  destruct (Py.starts "%20" (String c rest)); [apply Hunder, IH|].
  destruct (Ascii.eqb c " " || Ascii.eqb c "+") eqn:E; [apply Hunder, IH|].
  apply orb_false_iff in E. destruct E as [E1 E2].
  cbn [Py.contains Py.starts]. rewrite IH, andb_true_r, orb_false_r.
  destruct Hch; subst ch; rewrite Ascii.eqb_sym; assumption.
Qed.

(** The tag has no [%20] left. *)
Lemma underscored_no_percent_20 (raw : string) :
  forall skip, Py.contains "%20" (underscored skip raw) = false.
Proof.
  induction raw as [|c rest IH]; intro skip; [reflexivity|].
  cbn [underscored]. destruct skip as [|k]; [|apply IH].
  assert (Hunder : forall t,
             Py.contains "%20" t = false ->
             Py.contains "%20" (String "_" t) = false).
  { intros t Ht. cbn [Py.contains]. rewrite Ht. reflexivity. }
  destruct (Py.starts "%20" (String c rest)) eqn:Hs; [apply Hunder, IH|].
  destruct (Ascii.eqb c " " || Ascii.eqb c "+"); [apply Hunder, IH|].
  cbn [Py.contains]. rewrite IH, orb_false_r.
  destruct (Py.starts "%20" (String c (underscored 0 rest))) eqn:Hout;
    [|reflexivity].
  change (Ascii.eqb "%" c && Py.starts "20" (underscored 0 rest) = true)
    in Hout.
  change (Ascii.eqb "%" c && Py.starts "20" rest = false) in Hs.
  apply andb_true_iff in Hout. destruct Hout as [Hc Hout].
  apply (starts_underscored "20" eq_refl) in Hout; [|discriminate].
  rewrite Hc, Hout in Hs. discriminate.
Qed.

(** A raw value without space, plus sign and [%20] is its own tag. *)
Lemma underscored_clean (raw : string) :
  Py.contains " " raw = false ->
  Py.contains "+" raw = false ->
  Py.contains "%20" raw = false ->
  underscored 0 raw = raw.
Proof.
  induction raw as [|c rest IH]; intros Hsp Hpl Hpc; [reflexivity|].
  cbn [Py.contains] in Hsp, Hpl, Hpc.
  apply orb_false_iff in Hsp, Hpl, Hpc.
  destruct Hsp as [Hsp Hsp'], Hpl as [Hpl Hpl'], Hpc as [Hpc Hpc'].
  cbn [Py.starts] in Hsp, Hpl. rewrite andb_true_r in Hsp, Hpl.
  cbn [underscored]. rewrite Hpc.
  rewrite (Ascii.eqb_sym c " "), Hsp, (Ascii.eqb_sym c "+"), Hpl. cbn [orb].
  f_equal. apply IH; assumption.
Qed.

(** The outcomes of the redirector: [Http404], or a permanent redirect
    into the site. *)
Lemma redirect_ask_search_on_site (request : HttpRequest) (language : string) :
  redirect_ask_search request language = Raise Http404
  \/ exists url,
       redirect_ask_search request language
       = Return (HttpResponsePermanentRedirect url)
       /\ (Py.starts "/ask-cfpb/" url = true
           \/ (language = "es"
               /\ Py.starts "/es/obtener-respuestas/" url = true)).
Proof.
  rewrite redirect_ask_search_resolve.
  destruct (Py.truthy_opt (get (GET request) "q")) eqn:Hq.
  - destruct (get (GET request) "q") as [q|]; [|discriminate].
    cbn [Py.truthy_opt] in Hq. rewrite (resolve_redirect_query _ _ _ Hq).
    right. destruct (Py.truthy (Py.strip q)); eexists; split;
      try reflexivity; left; reflexivity.
  - rewrite (resolve_redirect_no_query _ _ _ Hq).
    destruct (no_leading_facet _).
    + right. eexists. split; [reflexivity | left; reflexivity].
    + rewrite facet_redirects_first_value.
      unfold redirect_to_category, redirect_to_audience, redirect_to_tag.
      destruct (first_value category_facet _);
        [| destruct (first_value audience_facet _);
           [| destruct (first_value tag_facet _); [|left; reflexivity]]];
        right; destruct (String.eqb language "es") eqn:E;
        try apply String.eqb_eq in E;
        eexists; (split; [reflexivity|]);
        solve [left; reflexivity | right; split; [exact E | reflexivity]].
Qed.

(** X1.  Whatever the request and the language, the legacy redirector
    either raises [Http404] or answers with a permanent redirect to a path
    of this site: one under [/ask-cfpb/], or, for language [es] only, one
    under [/es/obtener-respuestas/]. *)
Theorem X1_redirects_stay_on_site (request : HttpRequest) (language : string) :
  redirect_ask_search request language = Raise Http404
  \/ exists url,
       redirect_ask_search request language
       = Return (HttpResponsePermanentRedirect url)
       /\ (Py.starts "/ask-cfpb/" url = true
           \/ (language = "es"
               /\ Py.starts "/es/obtener-respuestas/" url = true)).
Proof.
  exact (redirect_ask_search_on_site request language).
Qed.

(** X2.  The language counts only as [es] or not [es]: any other language
    is answered as English is. *)
Theorem X2_other_languages_as_english (request : HttpRequest)
  (language : string) :
  language <> "es" ->
  redirect_ask_search request language = redirect_ask_search request "en".
Proof.
  intro H. unfold redirect_ask_search.
  rewrite (facet_redirects_language _ _ H). reflexivity.
Qed.

(** X3.  A tag value that comes with underscores already, without space,
    plus sign or [%20], goes into the tag URL as it is. *)
Theorem X3_clean_tag_kept (query_text : option string) (facets : list string)
  (language raw_tag : string) :
  Py.truthy_opt query_text = false ->
  no_leading_facet facets = false ->
  first_value category_facet facets = None ->
  first_value audience_facet facets = None ->
  first_value tag_facet facets = Some raw_tag ->
  Py.contains " " raw_tag = false ->
  Py.contains "+" raw_tag = false ->
  Py.contains "%20" raw_tag = false ->
  resolve_redirect query_text facets language
  = Return (redirect_to_tag raw_tag language).
Proof.
  intros Hq Hlead Hc Ha Ht Hsp Hpl Hpc.
  rewrite (resolve_redirect_no_query _ _ _ Hq), Hlead.
  rewrite facet_redirects_first_value, Hc, Ha, Ht.
  rewrite tag_underscored, (underscored_clean _ Hsp Hpl Hpc). reflexivity.
Qed.

(** X4.  The tag that a tag redirect carries never holds a space, a plus
    sign or [%20]. *)
Theorem X4_tag_has_no_separator (query_text : option string)
  (facets : list string) (language raw_tag : string) :
  Py.truthy_opt query_text = false ->
  no_leading_facet facets = false ->
  first_value category_facet facets = None ->
  first_value audience_facet facets = None ->
  first_value tag_facet facets = Some raw_tag ->
  exists tag,
    resolve_redirect query_text facets language
    = Return (redirect_to_tag tag language)
    /\ Py.contains " " tag = false
    /\ Py.contains "+" tag = false
    /\ Py.contains "%20" tag = false.
Proof.
  intros Hq Hlead Hc Ha Ht. exists (underscored 0 raw_tag).
  rewrite (resolve_redirect_no_query _ _ _ Hq), Hlead.
  rewrite facet_redirects_first_value, Hc, Ha, Ht, tag_underscored.
  split; [reflexivity|]. split; [|split].
  - apply (underscored_no_char " "). left. reflexivity.
  - apply (underscored_no_char "+"). right. reflexivity.
  - apply underscored_no_percent_20.
Qed.

(** X5.  A query parameter other than [q] and [selected_facets] changes
    nothing, wherever it stands in the query string. *)
Theorem X5_other_parameters_ignored (d1 d2 : QueryDict) (k v language : string) :
  k <> "q" ->
  k <> "selected_facets" ->
  redirect_ask_search {| GET := (d1 ++ (k, v) :: d2)%list |} language
  = redirect_ask_search {| GET := (d1 ++ d2)%list |} language.
Proof.
  intros Hq Hf. rewrite !redirect_ask_search_resolve. cbn [GET]. unfold get.
  rewrite (getlist_other_key _ _ _ _ _ Hq), (getlist_other_key _ _ _ _ _ Hf).
  reflexivity.
Qed.

(** ** Autocomplete, search and answer pages *)

(** Taking out one character works character by character. *)
Lemma replace_char_out (a c : ascii) (s : string) :
  Py.replace (String a "") "" (String c s)
  = if Ascii.eqb a c then Py.replace (String a "") "" s
    else String c (Py.replace (String a "") "" s).
Proof.
  unfold Py.replace. cbn [Py.replace_from Py.starts String.length Nat.sub].
  rewrite andb_true_r. destruct (Ascii.eqb a c); reflexivity.
Qed.

(** A character that was taken out is not there any more. *)
Lemma contains_replace_char_out (a : ascii) (s : string) :
  Py.contains (String a "") (Py.replace (String a "") "" s) = false.
Proof.
  induction s as [|c s IH]; [reflexivity|].
  rewrite replace_char_out. destruct (Ascii.eqb a c) eqn:E; [exact IH|].
  cbn [Py.contains Py.starts]. rewrite E, IH. reflexivity.
Qed.

(** X6.  [ask_autocomplete] answers with a JSON array of at most 20
    entries, whatever the index holds. *)
Theorem X6_autocomplete_at_most_20 (request : HttpRequest) (language : string) :
  exists items,
    ask_autocomplete request language = JArray items
    /\ List.length items <= 20.
Proof.
  unfold ask_autocomplete. cbv zeta.
  destruct (negb (Py.truthy _)); [exists []; split; [reflexivity | cbn; lia]|].
  destruct (sqs_autocomplete _ language) as [sqs|];
    [|exists []; split; [reflexivity | cbn; lia]].
  eexists. split; [reflexivity|].
  rewrite length_map, length_firstn. lia.
Qed.

(** X8.  A request with [selected_facets] in its query string is answered
    by the legacy redirector alone: with [Http404] or a permanent redirect
    into the site, whatever the language (supported or not), the results
    pages and [as_json]. *)
Theorem X8_facets_go_to_redirector (results_pages : list AnswerResultsPage)
  (request : HttpRequest) (language : string) (as_json : bool) :
  has_key (GET request) "selected_facets" = true ->
  ask_search results_pages request language as_json = Failed (Raised Http404)
  \/ exists url,
       ask_search results_pages request language as_json
       = Answered (LegacyRedirect (HttpResponsePermanentRedirect url))
       /\ (Py.starts "/ask-cfpb/" url = true
           \/ (language = "es"
               /\ Py.starts "/es/obtener-respuestas/" url = true)).
Proof.
  intro Hkey. unfold ask_search. rewrite Hkey.
  destruct (redirect_ask_search_on_site request language)
    as [H|(url & H & Hurl)]; rewrite H.
  - left. reflexivity.
  - right. exists url. split; [reflexivity | exact Hurl].
Qed.

(** X9.  [ask_search] ends in a [KeyError] exactly when the query string
    has no [selected_facets] and the language is neither [en] nor [es]; the
    key is the language. *)
Theorem X9_unsupported_language (results_pages : list AnswerResultsPage)
  (request : HttpRequest) (language : string) (as_json : bool) (key : string) :
  ask_search results_pages request language as_json = Failed (KeyError key)
  <-> has_key (GET request) "selected_facets" = false
      /\ language <> "en" /\ language <> "es" /\ key = language.
Proof.
  unfold ask_search, language_map.
  destruct (has_key (GET request) "selected_facets").
  - split.
    + destruct (redirect_ask_search request language); discriminate.
    + intros [H _]. discriminate.
  - destruct (String.eqb language "en") eqn:Een.
    + apply String.eqb_eq in Een. split.
      * destruct (get_object_or_404 _ results_pages); [|discriminate].
        cbv zeta. destruct (negb _); [discriminate|].
        destruct as_json; discriminate.
      * intros (_ & H & _). contradiction.
    + destruct (String.eqb language "es") eqn:Ees.
      * apply String.eqb_eq in Ees. split.
        -- destruct (get_object_or_404 _ results_pages); [|discriminate].
           cbv zeta. destruct (negb _); [discriminate|].
           destruct as_json; discriminate.
        -- intros (_ & _ & H & _). contradiction.
      * apply String.eqb_neq in Een, Ees. split.
        -- intro H. injection H as <-. auto.
        -- intros (_ & _ & _ & ->). reflexivity.
Qed.

(** X10.  For a query, the JSON answer and the served page show the same
    thing: the JSON body is made of the attributes of the page that the
    same request gets without [as_json], hit for hit and in the same
    order. *)
Theorem X10_json_matches_page (results_pages : list AnswerResultsPage)
  (request : HttpRequest) (language : string) (page : AnswerResultsPage) :
  get_or (GET request) "q" "" <> "" ->
  ask_search results_pages request language false
  = Answered (ServedResults page) ->
  exists hits,
    answers page
    = map (fun r => (result_url r, result_autocomplete r, result_preview r))
        hits
    /\ ask_search results_pages request language true
       = Answered
           (JsonBody
              (JObject
                 [("query", json_of_option (query page));
                  ("result_query", json_of_option (result_query page));
                  ("suggestion", json_of_option (results_suggestion page));
                  ("results", JArray (map result_json hits))])).
Proof.
  intros Hq. apply truthy_true_iff in Hq. unfold ask_search.
  destruct (has_key (GET request) "selected_facets").
  { destruct (redirect_ask_search request language); discriminate. }
  destruct (language_map language) as [slug|]; [|discriminate].
  destruct (get_object_or_404 _ results_pages) as [results_page|e];
    [|discriminate].
  cbv zeta. rewrite Hq. cbn [negb].
  intro H. injection H as <-. cbn [answers query result_query
    results_suggestion json_of_option].
  eexists. split; reflexivity.
Qed.

(** X12.  [view_answer] hands an answer page to a serve method, its own or
    the sharing view's, only when the page is live, has no redirect set and
    is asked for under its own slug, [slug-language-answer_id]. *)
Theorem X12_served_under_own_slug (request : HttpRequest)
  (slug language answer_id : string) (response : AnswerResponse) :
  view_answer request slug language answer_id = Return response ->
  (forall redirected, response <> AnswerRedirect redirected) ->
  exists answer_page,
    AnswerPage_get language answer_id = Return answer_page
    /\ live answer_page = true
    /\ redirect_url answer_page = None
    /\ answer_slug answer_page = slug ++ "-" ++ language ++ "-" ++ answer_id.
Proof.
  unfold view_answer. intros H Hserved.
  destruct (AnswerPage_get language answer_id) as [answer_page|e] eqn:Hget.
  - cbn [try_except bind] in H. exists answer_page. split; [reflexivity|].
    destruct (live answer_page); cbn [negb] in H; [|discriminate].
    split; [reflexivity|].
    destruct (redirect_url answer_page) as [u|].
    + injection H as <-. now elim (Hserved (redirect u true)).
    + split; [reflexivity|].
      destruct (String.eqb _ (answer_slug answer_page)) eqn:E; cbn [negb] in H.
      * apply String.eqb_eq in E. symmetry. exact E.
      * injection H as <-.
        now elim (Hserved (redirect (answer_url answer_page) true)).
  - cbn [try_except] in H.
    destruct (exception_eqb e DoesNotExist); discriminate.
Qed.

(** X13.  [view_answer] redirects only for a live answer page, and
    permanently: to the page's redirect target when it has one, and
    otherwise to the page's own URL, when the page is asked for under
    another slug than its own. *)
Theorem X13_redirects_of_view_answer (request : HttpRequest)
  (slug language answer_id : string) (redirected : HttpResponse) :
  view_answer request slug language answer_id
  = Return (AnswerRedirect redirected) ->
  exists answer_page url,
    AnswerPage_get language answer_id = Return answer_page
    /\ live answer_page = true
    /\ redirected = HttpResponsePermanentRedirect url
    /\ (redirect_url answer_page = Some url
        \/ (redirect_url answer_page = None
            /\ url = answer_url answer_page
            /\ answer_slug answer_page
               <> slug ++ "-" ++ language ++ "-" ++ answer_id)).
Proof.
  unfold view_answer. intro H.
  destruct (AnswerPage_get language answer_id) as [answer_page|e] eqn:Hget.
  - cbn [try_except bind] in H. exists answer_page.
    destruct (live answer_page); cbn [negb] in H; [|discriminate].
    destruct (redirect_url answer_page) as [u|].
    + injection H as <-. exists u. repeat split. left. reflexivity.
    + destruct (String.eqb _ (answer_slug answer_page)) eqn:E; cbn [negb] in H.
      * destruct (find_for_request request) as [sharing_site|];
          [|discriminate].
        destruct (ServeView_serve sharing_site request); discriminate.
      * injection H as <-. exists (answer_url answer_page). repeat split.
        right. repeat split. apply String.eqb_neq in E. congruence.
  - cbn [try_except] in H.
    destruct (exception_eqb e DoesNotExist); discriminate.
Qed.

(** ** The annotated document *)

(** Induction on a document, with the property at hand for every child. *)
Lemma PageElement_induction (P : PageElement -> Prop) :
  (forall s, P (NavigableString s)) ->
  (forall i n a cs, Forall P cs -> P (Tag i n a cs)) ->
  forall e, P e.
Proof.
  intros Hs Ht.
  exact (fix go (e : PageElement) : P e :=
           match e with
           | NavigableString s => Hs s
           | Tag i n a cs =>
               Ht i n a cs
                 ((fix children (l : list PageElement) : Forall P l :=
                     match l with
                     | [] => Forall_nil P
                     | c :: rest => Forall_cons c (go c) (children rest)
                     end) cs)
           end).
Qed.

Lemma insert_after_tag (target : nat) (new : PageElement) (i : nat)
  (n : string) (a : list (string * string)) (cs : list PageElement) :
  insert_after target new (Tag i n a cs)
  = Tag i n a (insert_siblings target new cs).
Proof.
  cbn [insert_after]. f_equal.
  induction cs as [|c rest IH]; [reflexivity|].
  cbn [insert_siblings]. rewrite <- IH.
  destruct (has_ident target c); reflexivity.
Qed.

Lemma followed_by_tag (target index i : nat) (n : string)
  (a : list (string * string)) (cs : list PageElement) :
  followed_by target index (Tag i n a cs)
  = siblings_followed (followed_by target index) target index cs.
Proof.
  cbn [followed_by].
  induction cs as [|c rest IH]; [reflexivity|].
  cbn [siblings_followed]. rewrite <- IH. reflexivity.
Qed.

(** [insert_after] leaves the tag it is applied to its name, identity and
    attributes. *)
Lemma insert_after_head (target : nat) (new e : PageElement) :
  is_tag_named "a" (insert_after target new e) = is_tag_named "a" e
  /\ anchor_head (insert_after target new e) = anchor_head e
  /\ forall t, has_ident t (insert_after target new e) = has_ident t e.
Proof.
  destruct e as [s|i n a cs]; [repeat split|].
  rewrite insert_after_tag. repeat split.
Qed.

Lemma filter_flat_map {A B : Type} (p : B -> bool) (f : A -> list B)
  (l : list A) :
  filter p (flat_map f l) = flat_map (fun x => filter p (f x)) l.
Proof.
  induction l as [|x l IH]; [reflexivity|].
  cbn [flat_map]. rewrite filter_app, IH. reflexivity.
Qed.

Lemma anchors_at_tag (i : nat) (n : string) (a : list (string * string))
  (cs : list PageElement) :
  anchors_at (Tag i n a cs)
  = ((if String.eqb n "a" then [Tag i n a cs] else [])
     ++ flat_map anchors_at cs)%list.
Proof.
  unfold anchors_at at 1. cbn [filter is_tag_named descendants].
  rewrite filter_flat_map.
  destruct (String.eqb n "a"); reflexivity.
Qed.

Lemma findAll_tag (i : nat) (n : string) (a : list (string * string))
  (cs : list PageElement) :
  findAll "a" (Tag i n a cs) = flat_map anchors_at cs.
Proof.
  unfold findAll. cbn [descendants]. apply filter_flat_map.
Qed.

(** Putting in an element without anchors keeps the anchors: the same
    identities and attributes, in the same order. *)
Lemma anchors_at_insert_after (target : nat) (new : PageElement) :
  anchors_at new = [] ->
  forall e,
    map anchor_head (anchors_at (insert_after target new e))
    = map anchor_head (anchors_at e).
Proof.
  intro Hnew. induction e as [s|i n a cs IH] using PageElement_induction;
    [reflexivity|].
  rewrite insert_after_tag, !anchors_at_tag, !map_app. f_equal.
  - destruct (String.eqb n "a"); reflexivity.
  - induction IH as [|c rest Hc _ IHrest]; [reflexivity|].
    cbn [insert_siblings].
    destruct (has_ident target c); cbn [flat_map];
      rewrite ?Hnew, ?app_nil_l, !map_app, Hc, IHrest; reflexivity.
Qed.

Lemma findAll_insert_after (target : nat) (new soup : PageElement) :
  anchors_at new = [] ->
  map anchor_head (findAll "a" (insert_after target new soup))
  = map anchor_head (findAll "a" soup).
Proof.
  intro Hnew. destruct soup as [s|i n a cs]; [reflexivity|].
  rewrite insert_after_tag, !findAll_tag.
  induction cs as [|c rest IH]; [reflexivity|].
  cbn [insert_siblings].
  destruct (has_ident target c); cbn [flat_map];
    rewrite ?Hnew, ?app_nil_l, !map_app, IH,
      (anchors_at_insert_after target new Hnew c); reflexivity.
Qed.

Lemma tag_get_attrs (e : PageElement) (key : string) :
  tag_get e key = lookup_attr key (attrs_of e).
Proof.
  destruct e; reflexivity.
Qed.

Lemma destinations_heads (l1 l2 : list PageElement) :
  map anchor_head l1 = map anchor_head l2 ->
  destinations l1 = destinations l2.
Proof.
  revert l2. induction l1 as [|x l1 IH]; intros [|y l2] H; try discriminate;
    [reflexivity|].
  cbn [map] in H. unfold anchor_head at 1 3 in H.
  injection H as _ Hattrs Hrest.
  cbn [destinations]. unfold destination. rewrite !tag_get_attrs, Hattrs.
  rewrite (IH l2 Hrest). reflexivity.
Qed.

(** X14.  The loop of [annotate_links] neither adds nor removes an anchor
    and leaves the anchors their attributes: the document it ends with has
    the anchors, in the order, of the document it started with, and so the
    same destinations. *)
Theorem X14_annotation_keeps_anchors (_site : Site)
  (links : list PageElement) :
  forall (soup : PageElement) (footnotes : list (nat * string)) (index : nat)
    (soup' : PageElement) (footnotes' : list (nat * string)) (index' : nat),
    annotate_loop _site links (soup, footnotes, index)
    = Return (soup', footnotes', index') ->
    map anchor_head (findAll "a" soup') = map anchor_head (findAll "a" soup)
    /\ destinations (findAll "a" soup') = destinations (findAll "a" soup).
Proof.
  assert (Hheads : forall soup footnotes index soup' footnotes' index',
             annotate_loop _site links (soup, footnotes, index)
             = Return (soup', footnotes', index') ->
             map anchor_head (findAll "a" soup')
             = map anchor_head (findAll "a" soup)).
  { induction links as [|link rest IH]; intros soup footnotes index soup'
      footnotes' index' H.
    - cbn [annotate_loop] in H. injection H as <- _ _. reflexivity.
    - destruct (destination link) as [href|] eqn:E.
      + rewrite (annotate_loop_step _ _ _ _ _ _ _ E) in H.
        destruct (urljoin (root_url _site) href) as [url|]; [|discriminate].
        rewrite (IH _ _ _ _ _ _ H).
        apply findAll_insert_after. reflexivity.
      + rewrite (annotate_loop_skip _ _ _ _ E) in H. exact (IH _ _ _ _ _ _ H). }
  intros soup footnotes index soup' footnotes' index' H.
  split; [exact (Hheads _ _ _ _ _ _ H)|].
  apply destinations_heads. exact (Hheads _ _ _ _ _ _ H).
Qed.

(** A marker has no tag inside, so [insert_after] leaves it as it is. *)
Lemma insert_after_marker (target : nat) (new : PageElement) (index : nat)
  (m : PageElement) :
  is_marker index m = true -> insert_after target new m = m.
Proof.
  destruct m as [s|j n [|x a] [|[s|j' n' a' cs'] [|y cs]]]; try discriminate.
  reflexivity.
Qed.

Lemma is_marker_new_tag (soup : PageElement) (index : nat) :
  is_marker index (new_tag soup "sup" (Py.str_of_nat index)) = true.
Proof.
  unfold new_tag, is_marker. rewrite !String.eqb_refl. reflexivity.
Qed.

Lemma has_ident_eq (t : nat) (e : PageElement) :
  has_ident t e = true -> ident_of e = t.
Proof.
  destruct e as [s|i n a cs]; [discriminate|].
  cbn [has_ident ident_of]. intro H. apply Nat.eqb_eq in H. auto.
Qed.

(** After [insert_after target new], [new] follows every tag with identity
    [target]. *)
Lemma followed_by_insert_after (target index : nat) (new : PageElement) :
  has_ident target new = false ->
  followed_by target index new = true ->
  is_marker index new = true ->
  forall e, followed_by target index (insert_after target new e) = true.
Proof.
  intros Hid Hnew Hmarker.
  induction e as [s|i n a cs IH] using PageElement_induction; [reflexivity|].
  rewrite insert_after_tag, followed_by_tag.
  induction IH as [|c rest Hc _ IHrest]; [reflexivity|].
  cbn [insert_siblings].
  destruct (has_ident target c) eqn:E; cbn [siblings_followed];
    rewrite Hc, IHrest, (proj2 (proj2 (insert_after_head target new c))), E.
  - rewrite Hmarker, Hnew, Hid. reflexivity.
  - reflexivity.
Qed.

(** A later [insert_after], at another identity, leaves the marker where it
    is. *)
Lemma followed_by_kept (target index other : nat) (new : PageElement) :
  target <> other ->
  has_ident target new = false ->
  followed_by target index new = true ->
  forall e,
    followed_by target index e = true ->
    followed_by target index (insert_after other new e) = true.
Proof.
  intros Hne Hid Hnew.
  induction e as [s|i n a cs IH] using PageElement_induction; [reflexivity|].
  rewrite insert_after_tag, !followed_by_tag.
  induction IH as [|c rest Hc _ IHrest]; [reflexivity|].
  cbn [siblings_followed]. intro H.
  apply andb_true_iff in H. destruct H as [H Hrest].
  apply andb_true_iff in H. destruct H as [Hbelow Hnext].
  assert (Hhead : match insert_siblings other new rest with
                  | m :: _ => is_marker index m
                  | [] => false
                  end
                  = match rest with
                    | m :: _ => is_marker index m
                    | [] => false
                    end \/ has_ident target c = false).
  { destruct (has_ident target c) eqn:E; [left | right; reflexivity].
    destruct rest as [|m rest']; [discriminate|].
    cbn [insert_siblings].
    rewrite (insert_after_marker other new index m Hnext).
    destruct (has_ident other m); reflexivity. }
  cbn [insert_siblings].
  destruct (has_ident other c) eqn:Eo; cbn [siblings_followed];
    rewrite (Hc Hbelow), (IHrest Hrest),
      (proj2 (proj2 (insert_after_head other new c))).
  - assert (Et : has_ident target c = false).
    { destruct (has_ident target c) eqn:Et; [|reflexivity].
      apply has_ident_eq in Et, Eo. congruence. }
    rewrite Et, Hnew, Hid. reflexivity.
  - destruct Hhead as [Hm|Et].
    + rewrite Hm, Hnext. reflexivity.
    + rewrite Et. reflexivity.
Qed.

Lemma existsb_flat_map {A B : Type} (p : B -> bool) (f : A -> list B)
  (l : list A) :
  existsb p (flat_map f l) = existsb (fun x => existsb p (f x)) l.
Proof.
  induction l as [|x l IH]; [reflexivity|].
  cbn [flat_map existsb]. rewrite existsb_app, IH. reflexivity.
Qed.

Lemma occurs_tag (target i : nat) (n : string) (a : list (string * string))
  (cs : list PageElement) :
  occurs target (Tag i n a cs)
  = existsb (fun c => has_ident target c || occurs target c) cs.
Proof.
  unfold occurs. cbn [descendants]. rewrite existsb_flat_map. reflexivity.
Qed.

(** [insert_after] takes no tag away. *)
Lemma occurs_insert_after (target other : nat) (new : PageElement) :
  forall e,
    occurs target e = true -> occurs target (insert_after other new e) = true.
Proof.
  induction e as [s|i n a cs IH] using PageElement_induction;
    [intro H; exact H|].
  rewrite insert_after_tag, !occurs_tag.
  induction IH as [|c rest Hc _ IHrest]; [intro H; exact H|].
  cbn [existsb]. intro H.
  assert (Hgoal : (has_ident target (insert_after other new c)
                   || occurs target (insert_after other new c))
                  || existsb
                       (fun c0 => has_ident target c0 || occurs target c0)
                       (insert_siblings other new rest) = true).
  { rewrite (proj2 (proj2 (insert_after_head other new c))).
    apply orb_true_iff in H. destruct H as [H|H].
    - apply orb_true_iff in H. destruct H as [H|H].
      + rewrite H. reflexivity.
      + rewrite (Hc H). rewrite orb_true_r. reflexivity.
    - rewrite (IHrest H). apply orb_true_r. }
  cbn [insert_siblings]. destruct (has_ident other c); cbn [existsb].
  - apply orb_true_iff in Hgoal. destruct Hgoal as [Hg|Hg]; rewrite Hg;
      [reflexivity | rewrite !orb_true_r; reflexivity].
  - exact Hgoal.
Qed.

Lemma max_ident_tag_ge (i : nat) (n : string) (a : list (string * string))
  (cs : list PageElement) :
  i <= max_ident (Tag i n a cs).
Proof.
  cbn [max_ident]. induction cs as [|c rest IH]; cbn [fold_right]; lia.
Qed.

(** The identities in use below a document are at most [max_ident]. *)
Lemma occurs_le_max_ident (target : nat) :
  forall e, occurs target e = true -> target <= max_ident e.
Proof.
  induction e as [s|i n a cs IH] using PageElement_induction;
    [discriminate|].
  rewrite occurs_tag. cbn [max_ident].
  induction IH as [|c rest Hc _ IHrest]; [discriminate|].
  cbn [existsb fold_right]. intro H.
  apply orb_true_iff in H. destruct H as [H|H].
  - apply orb_true_iff in H. destruct H as [H|H].
    + assert (target <= max_ident c); [|lia].
      destruct c as [s|j m b ds]; [discriminate|].
      apply has_ident_eq in H. cbn [ident_of] in H. subst j.
      apply max_ident_tag_ge.
    + specialize (Hc H). lia.
  - specialize (IHrest H). lia.
Qed.

(** The tag that [new_tag] makes has an identity of its own. *)
Lemma new_tag_fresh (target : nat) (soup : PageElement) (name text : string) :
  occurs target soup = true ->
  has_ident target (new_tag soup name text) = false.
Proof.
  intro H. apply occurs_le_max_ident in H.
  unfold new_tag. cbn [has_ident]. apply Nat.eqb_neq. lia.
Qed.

(** The rest of the loop leaves a marker where it is, when it does not come
    back to the marker's anchor. *)
Lemma annotate_loop_keeps_marker (_site : Site) (links : list PageElement)
  (target index0 : nat) :
  ~ In target (map ident_of links) ->
  forall soup footnotes index soup' footnotes' index',
    annotate_loop _site links (soup, footnotes, index)
    = Return (soup', footnotes', index') ->
    occurs target soup = true ->
    followed_by target index0 soup = true ->
    occurs target soup' = true /\ followed_by target index0 soup' = true.
Proof.
  induction links as [|link rest IH]; intros Hnot soup footnotes index soup'
    footnotes' index' H Hocc Hfb.
  - cbn [annotate_loop] in H. injection H as <- _ _. auto.
  - cbn [map In] in Hnot.
    assert (Hrest : ~ In target (map ident_of rest))
      by (intro Hin; apply Hnot; right; exact Hin).
    assert (Hne : target <> ident_of link)
      by (intro Heq; apply Hnot; left; symmetry; exact Heq).
    destruct (destination link) as [href|] eqn:E.
    + rewrite (annotate_loop_step _ _ _ _ _ _ _ E) in H.
      destruct (urljoin (root_url _site) href) as [url|]; [|discriminate].
      apply (IH Hrest _ _ _ _ _ _ H).
      * apply occurs_insert_after. exact Hocc.
      * apply followed_by_kept; auto using new_tag_fresh.
    + rewrite (annotate_loop_skip _ _ _ _ E) in H.
      exact (IH Hrest _ _ _ _ _ _ H Hocc Hfb).
Qed.

(** Every anchor with a destination ends up with the marker of its index
    as its next sibling. *)
Lemma annotate_loop_markers (_site : Site) (links : list PageElement) :
  forall soup footnotes index soup' footnotes' index',
    NoDup (map ident_of links) ->
    (forall link, In link links -> occurs (ident_of link) soup = true) ->
    annotate_loop _site links (soup, footnotes, index)
    = Return (soup', footnotes', index') ->
    Forall2
      (fun link i =>
         occurs (ident_of link) soup' = true
         /\ followed_by (ident_of link) i soup' = true)
      (filter has_destination links)
      (seq index (List.length (filter has_destination links))).
Proof.
  induction links as [|link rest IH]; intros soup footnotes index soup'
    footnotes' index' Hnodup Hocc H; [constructor|].
  cbn [map] in Hnodup. inversion Hnodup as [|x l Hnot Hnodup']. subst x l.
  cbn [filter].
  destruct (destination link) as [href|] eqn:E.
  - assert (Hd : has_destination link = true)
      by (unfold has_destination; rewrite E; reflexivity).
    rewrite Hd.
    rewrite (annotate_loop_step _ _ _ _ _ _ _ E) in H.
    destruct (urljoin (root_url _site) href) as [url|]; [|discriminate].
    pose proof (Hocc link (or_introl eq_refl)) as Hlink.
    cbn [List.length seq]. constructor.
    + apply (annotate_loop_keeps_marker _ _ _ _ Hnot _ _ _ _ _ _ H).
      * apply occurs_insert_after. exact Hlink.
      * apply followed_by_insert_after.
        -- apply new_tag_fresh. exact Hlink.
        -- reflexivity.
        -- apply is_marker_new_tag.
    + rewrite Nat.add_1_r in H.
      apply (IH _ _ _ _ _ _ Hnodup' (fun l Hl =>
               occurs_insert_after _ _ _ _ (Hocc l (or_intror Hl))) H).
  - assert (Hd : has_destination link = false)
      by (unfold has_destination; rewrite E; reflexivity).
    rewrite Hd.
    rewrite (annotate_loop_skip _ _ _ _ E) in H.
    apply (IH _ _ _ _ _ _ Hnodup' (fun l Hl => Hocc l (or_intror Hl)) H).
Qed.

Lemma findAll_occurs (soup link : PageElement) :
  In link (findAll "a" soup) -> occurs (ident_of link) soup = true.
Proof.
  unfold findAll, occurs. intro H. apply filter_In in H.
  destruct H as [Hin Hname]. apply existsb_exists. exists link.
  split; [exact Hin|].
  destruct link as [s|i n a cs]; [discriminate|].
  cbn [has_ident ident_of]. apply Nat.eqb_refl.
Qed.

Lemma Forall2_map_fst {A : Type} (R : A -> nat -> Prop) (l : list A)
  (pairs : list (nat * string)) :
  Forall2 R l (map fst pairs) -> Forall2 (fun x p => R x (fst p)) l pairs.
Proof.
  revert l. induction pairs as [|p pairs IH]; intros l H; inversion H; subst;
    constructor; auto.
Qed.

Lemma length_destinations (links : list PageElement) :
  List.length (destinations links)
  = List.length (filter has_destination links).
Proof.
  induction links as [|link rest IH]; [reflexivity|].
  cbn [destinations filter]. unfold has_destination at 1.
  destruct (destination link); cbn [List.length]; rewrite IH; reflexivity.
Qed.

(** X15.  When the anchors of the document have identities of their own,
    the loop of [annotate_links] leaves every anchor with a destination in
    the document and puts the [sup] element that holds the anchor's
    footnote index right after it, as its next sibling. *)
Theorem X15_marker_after_each_link (_site : Site) (soup soup' : PageElement)
  (footnotes : list (nat * string)) (index' : nat) :
  NoDup (map ident_of (findAll "a" soup)) ->
  annotate_loop _site (findAll "a" soup) (soup, [], 1)
  = Return (soup', footnotes, index') ->
  Forall2
    (fun link footnote =>
       occurs (ident_of link) soup' = true
       /\ followed_by (ident_of link) (fst footnote) soup' = true)
    (filter has_destination (findAll "a" soup)) footnotes.
Proof.
  intros Hnodup H.
  apply (Forall2_map_fst
           (fun link i =>
              occurs (ident_of link) soup' = true
              /\ followed_by (ident_of link) i soup' = true)).
  pose proof (annotate_loop_markers _ _ _ _ _ _ _ _ Hnodup
                (findAll_occurs soup) H) as Hmarkers.
  destruct (annotate_loop_footnotes _ _ _ _ _ _ _ _ H)
    as (urls & Hurls & Hfn & _).
  cbn [app] in Hfn. subst footnotes. rewrite combine_seq_fst.
  assert (Hlen : List.length urls
                 = List.length (filter has_destination (findAll "a" soup))).
  { rewrite <- length_destinations.
    rewrite <- (length_map Some urls), <- Hurls. apply length_map. }
  rewrite Hlen. exact Hmarkers.
Qed.

(** The loop raises [ValueError] exactly when the resolver refuses one of
    the destinations. *)
Lemma annotate_loop_value_error (_site : Site) (links : list PageElement) :
  forall st,
    annotate_loop _site links st = Raise ValueError
    <-> exists href,
          In href (destinations links)
          /\ urljoin (root_url _site) href = None.
Proof.
  induction links as [|link rest IH]; intros [[soup footnotes] index].
  - split; [discriminate | intros (href & [] & _)].
  - cbn [destinations]. destruct (destination link) as [href|] eqn:E.
    + rewrite (annotate_loop_step _ _ _ _ _ _ _ E).
      destruct (urljoin (root_url _site) href) as [url|] eqn:U.
      * rewrite IH. split.
        -- intros (h & Hin & Hh). exists h. split; [right|]; assumption.
        -- intros (h & [<-|Hin] & Hh); [congruence|]. exists h. auto.
      * split; [|reflexivity]. intros _. exists href. split; [left|]; auto.
    + rewrite (annotate_loop_skip _ _ _ _ E). apply IH.
Qed.

(** X16.  With one default site, [annotate_links] raises [ValueError]
    exactly when the URL resolver refuses the destination of one of the
    anchors, and returns when it refuses none. *)
Theorem X16_unresolvable_destination (sites : list Site) (_site : Site)
  (answer_text : string) :
  objects_get is_default_site sites = Return _site ->
  (annotate_links sites answer_text = Raise ValueError
   <-> exists href,
         In href (destinations (findAll "a" (bs answer_text)))
         /\ urljoin (root_url _site) href = None)
  /\ ((forall href,
         In href (destinations (findAll "a" (bs answer_text))) ->
         urljoin (root_url _site) href <> None) ->
      exists html footnotes,
        annotate_links sites answer_text = Return (html, footnotes)).
Proof.
  intro Hsite.
  assert (Hiff : annotate_links sites answer_text = Raise ValueError
                 <-> annotate_loop _site (findAll "a" (bs answer_text))
                       (bs answer_text, [], 1) = Raise ValueError).
  { unfold annotate_links. rewrite Hsite. cbn [try_except bind].
    destruct (annotate_loop _site _ _) as [[[soup' fns] index']|e];
      cbn [bind]; split; intro H; try discriminate; congruence. }
  split.
  - rewrite Hiff. apply annotate_loop_value_error.
  - intro Hall. unfold annotate_links. rewrite Hsite. cbn [try_except bind].
    destruct (annotate_loop _site (findAll "a" (bs answer_text))
                (bs answer_text, [], 1)) as [[[soup' fns] index']|e] eqn:Hloop;
      cbn [bind].
    + eexists. eexists. reflexivity.
    + pose proof (annotate_loop_raises _ _ _ _ Hloop) as ->.
      apply annotate_loop_value_error in Hloop.
      destruct Hloop as (href & Hin & Hnone). elim (Hall href Hin Hnone).
Qed.

(** X17.  [annotate_links] raises nothing but three exceptions: its
    configuration error when no site is the default one,
    [MultipleObjectsReturned] when two sites or more are, and [ValueError]
    when one is and the URL resolver refuses a destination. *)
Theorem X17_exceptions_of_annotate_links (sites : list Site)
  (answer_text : string) (e : exception) :
  annotate_links sites answer_text = Raise e ->
  (e = RuntimeError "no default wagtail site configured"
   /\ filter is_default_site sites = [])
  \/ (e = MultipleObjectsReturned
      /\ 2 <= List.length (filter is_default_site sites))
  \/ (e = ValueError
      /\ exists _site href,
           filter is_default_site sites = [_site]
           /\ In href (destinations (findAll "a" (bs answer_text)))
           /\ urljoin (root_url _site) href = None).
Proof.
  unfold annotate_links, objects_get.
  destruct (filter is_default_site sites) as [|s1 [|s2 rest]];
    cbn [try_except exception_eqb bind].
  - intro H. injection H as <-. left. auto.
  - destruct (annotate_loop s1 _ _) as [[[soup' fns] index']|e'] eqn:Hloop;
      cbn [bind]; [discriminate|].
    intro H. injection H as <-.
    pose proof (annotate_loop_raises _ _ _ _ Hloop) as ->.
    apply annotate_loop_value_error in Hloop.
    destruct Hloop as (href & Hin & Hnone).
    right. right. split; [reflexivity|]. exists s1, href. auto.
  - intro H. injection H as <-. right. left.
    split; [reflexivity | cbn [List.length]; lia].
Qed.

End Views.

(** ** Running the views on the samples *)

Example redirect_category_en :
  resolve_redirect ascii_slugify None ["category_exact:Credit Cards"] "en"
  = Return (HttpResponsePermanentRedirect "/ask-cfpb/category-credit-cards/").
Proof. reflexivity. Qed.

Example redirect_category_es :
  resolve_redirect ascii_slugify None
    ["page=2"; "tag_exact:x"; "category_exact:Credit Cards"] "es"
  = Return
      (HttpResponsePermanentRedirect
         "/es/obtener-respuestas/categoria-credit-cards/").
Proof. reflexivity. Qed.

Example redirect_request :
  redirect_ask_search ascii_slugify
    {| GET := [("selected_facets", "tag_exact:a+b"); ("q", "");
               ("selected_facets", "tag_exact:c")] |} "en"
  = Return (HttpResponsePermanentRedirect "/ask-cfpb/search-by-tag/a_b/").
Proof. reflexivity. Qed.

Example annotate_sample :
  annotate_links sample_bs sample_str sample_urljoin sample_sites sample_text
  = Return
      ("<html><body><p>See <a href='/ask-cfpb/'>Ask</a><sup>1</sup>, <a>here</a>, <a href=''>there</a> and <a href='https://example.com/x'>elsewhere</a><sup>2</sup>.</p></body></html>",
       [(1, "https://www.consumerfinance.gov/ask-cfpb/");
        (2, "https://example.com/x")]).
Proof. vm_compute. reflexivity. Qed.

Example annotate_two_default_sites :
  annotate_links sample_bs sample_str sample_urljoin
    (sample_sites ++ sample_sites)%list sample_text
  = Raise MultipleObjectsReturned.
Proof. reflexivity. Qed.

(** The footnotes of the sample text. *)
Lemma C1_footnotes_number_links_witness :
  annotate_links sample_bs sample_str sample_urljoin sample_sites sample_text
  = Return
      ("<html><body><p>See <a href='/ask-cfpb/'>Ask</a><sup>1</sup>, <a>here</a>, <a href=''>there</a> and <a href='https://example.com/x'>elsewhere</a><sup>2</sup>.</p></body></html>",
       [(1, "https://www.consumerfinance.gov/ask-cfpb/");
        (2, "https://example.com/x")])
  /\ exists _site,
       objects_get is_default_site sample_sites = Return _site
       /\ List.length
            [(1, "https://www.consumerfinance.gov/ask-cfpb/");
             (2, "https://example.com/x")]
          = List.length (destinations (findAll "a" (sample_bs sample_text)))
       /\ map fst
            [(1, "https://www.consumerfinance.gov/ask-cfpb/");
             (2, "https://example.com/x")]
          = seq 1
              (List.length (destinations (findAll "a" (sample_bs sample_text))))
       /\ map (fun footnote => Some (snd footnote))
            [(1, "https://www.consumerfinance.gov/ask-cfpb/");
             (2, "https://example.com/x")]
          = map (sample_urljoin (root_url _site))
              (destinations (findAll "a" (sample_bs sample_text))).
Proof.
  split; [vm_compute; reflexivity|].
  apply (C1_footnotes_number_links sample_bs sample_str sample_urljoin
           sample_sites sample_text
           "<html><body><p>See <a href='/ask-cfpb/'>Ask</a><sup>1</sup>, <a>here</a>, <a href=''>there</a> and <a href='https://example.com/x'>elsewhere</a><sup>2</sup>.</p></body></html>").
  vm_compute. reflexivity.
Defined.

(** The claim's own example: no query text and no facets give the redirect
    to the bare search page, not [Http404]; so does an empty first facet. *)
Lemma C2_counterexample :
  resolve_redirect ascii_slugify None [] "en"
  = Return (HttpResponsePermanentRedirect "/ask-cfpb/search/")
  /\ resolve_redirect ascii_slugify None [] "en" <> Raise Http404
  /\ resolve_redirect ascii_slugify (Some "") [""; "page=2"] "en"
     = Return (HttpResponsePermanentRedirect "/ask-cfpb/search/").
Proof.
  split; [reflexivity|]. split; [discriminate | reflexivity].
Qed.

(** A category facet without a value and a stray parameter: [Http404]. *)
Lemma C2_not_found_iff_witness :
  Py.truthy_opt None = false
  /\ resolve_redirect ascii_slugify None ["category_exact:"; "page=2"] "en"
     = Raise Http404.
Proof.
  split; [reflexivity|].
  apply (proj1 (C2_not_found_iff ascii_slugify None
                  ["category_exact:"; "page=2"] "en" eq_refl)).
  split; [reflexivity|].
  intros facet [<-|[<-|[]]]; repeat split; reflexivity.
Defined.

(** An empty first facet in front of a category and a tag facet: the bare
    search page, not the category page. *)
Lemma C3_counterexample :
  In "category_exact:a" [""; "category_exact:a"; "tag_exact:b"]
  /\ facet_value category_facet "category_exact:a" = Some "a"
  /\ In "tag_exact:b" [""; "category_exact:a"; "tag_exact:b"]
  /\ facet_value tag_facet "tag_exact:b" = Some "b"
  /\ resolve_redirect ascii_slugify None
       [""; "category_exact:a"; "tag_exact:b"] "en"
     = Return (HttpResponsePermanentRedirect "/ask-cfpb/search/")
  /\ ~ (exists slug,
          resolve_redirect ascii_slugify None
            [""; "category_exact:a"; "tag_exact:b"] "en"
          = Return (redirect_to_category slug "en")).
Proof.
  split; [right; left; reflexivity|]. split; [reflexivity|].
  split; [right; right; left; reflexivity|]. split; [reflexivity|].
  split; [reflexivity|].
  intros [slug H]. vm_compute in H. discriminate.
Qed.

(** A tag facet before the category facet. *)
Lemma C3_category_beats_tag_witness :
  Py.truthy_opt None = false
  /\ no_leading_facet ["tag_exact:b"; "category_exact:Credit Cards"] = false
  /\ exists category,
       first_value category_facet ["tag_exact:b"; "category_exact:Credit Cards"]
       = Some category
       /\ resolve_redirect ascii_slugify None
            ["tag_exact:b"; "category_exact:Credit Cards"] "en"
          = Return (redirect_to_category (ascii_slugify category) "en").
Proof.
  split; [reflexivity|]. split; [reflexivity|].
  apply (C3_category_beats_tag ascii_slugify None
           ["tag_exact:b"; "category_exact:Credit Cards"] "en"
           "category_exact:Credit Cards" "Credit Cards" "tag_exact:b" "b").
  - reflexivity.
  - reflexivity.
  - right. left. reflexivity.
  - reflexivity.
  - left. reflexivity.
  - reflexivity.
Defined.

(** A category facet, and a tag facet, with an empty value in front of one
    with a value: the later value is used, where the first occurrence alone
    would leave nothing to redirect to.  The first non-empty value of a type
    decides only past the guard on the first facet and when no type before
    it in the order has a value: an empty first facet gives the bare search
    page, and a category value wins over the tag value. *)
Lemma C4_counterexample :
  facet_value category_facet "category_exact:" = None
  /\ resolve_redirect ascii_slugify None
       ["category_exact:"; "category_exact:foo"] "en"
     = Return (HttpResponsePermanentRedirect "/ask-cfpb/category-foo/")
  /\ resolve_redirect ascii_slugify None ["category_exact:"] "en"
     = Raise Http404
  /\ facet_value tag_facet "tag_exact:" = None
  /\ resolve_redirect ascii_slugify None ["tag_exact:"; "tag_exact:foo"] "en"
     = Return (HttpResponsePermanentRedirect "/ask-cfpb/search-by-tag/foo/")
  /\ resolve_redirect ascii_slugify None ["tag_exact:"] "en" = Raise Http404
  /\ resolve_redirect ascii_slugify None [""; "category_exact:foo"] "en"
     = Return (HttpResponsePermanentRedirect "/ask-cfpb/search/")
  /\ resolve_redirect ascii_slugify None
       ["tag_exact:"; "tag_exact:foo"; "category_exact:c"] "en"
     = Return (HttpResponsePermanentRedirect "/ask-cfpb/category-c/").
Proof.
  repeat split; reflexivity.
Qed.

Lemma C4_first_non_empty_value_witness :
  Py.truthy_opt None = false
  /\ no_leading_facet (["tag_exact:"] ++ "tag_exact:a b" :: [])%list = false
  /\ resolve_redirect ascii_slugify None
       (["tag_exact:"] ++ "tag_exact:a b" :: [])%list "es"
     = Return
         (HttpResponsePermanentRedirect
            "/es/obtener-respuestas/buscar-por-etiqueta/a_b/").
Proof.
  split; [reflexivity|]. split; [reflexivity|].
  apply (proj2 (proj2 (C4_first_non_empty_value ascii_slugify None
                         ["tag_exact:"] "tag_exact:a b" [] "a b" "es"
                         eq_refl eq_refl))).
  - intros f [<-|[<-|[]]]; split; reflexivity.
  - intros f [<-|[]]. reflexivity.
  - reflexivity.
Defined.

(** Whitespace around the query text does not reach the URL. *)
Lemma C5_counterexample :
  resolve_redirect ascii_slugify (Some " mortgage ") [] "en"
  = Return (HttpResponsePermanentRedirect "/ask-cfpb/search/?q=mortgage")
  /\ resolve_redirect ascii_slugify (Some " mortgage ") [] "en"
     <> Return
          (HttpResponsePermanentRedirect ("/ask-cfpb/search/?q=" ++ " mortgage ")).
Proof.
  split; [reflexivity | discriminate].
Qed.

Lemma C5_query_redirects_witness :
  Py.truthy "  " = true
  /\ Py.strip "  " = ""
  /\ resolve_redirect ascii_slugify (Some "  ") ["category_exact:a"] "es"
     = Return (HttpResponsePermanentRedirect "/ask-cfpb/search/").
Proof.
  split; [reflexivity|]. split; [reflexivity|].
  apply (proj1 (proj2 (C5_query_redirects ascii_slugify "  "
                         ["category_exact:a"] "es" eq_refl))).
  reflexivity.
Defined.

(** An empty first facet in front of the tag facet: the bare search page. *)
Lemma C6_counterexample :
  first_value category_facet [""; "tag_exact:pay day loan"] = None
  /\ first_value audience_facet [""; "tag_exact:pay day loan"] = None
  /\ first_value tag_facet [""; "tag_exact:pay day loan"] = Some "pay day loan"
  /\ resolve_redirect ascii_slugify None [""; "tag_exact:pay day loan"] "es"
     = Return (HttpResponsePermanentRedirect "/ask-cfpb/search/").
Proof.
  repeat split; reflexivity.
Qed.

Lemma C6_tag_redirect_witness :
  Py.truthy_opt (Some "") = false
  /\ no_leading_facet ["page=2"; "tag_exact:a%20b+c d"] = false
  /\ first_value tag_facet ["page=2"; "tag_exact:a%20b+c d"] = Some "a%20b+c d"
  /\ resolve_redirect ascii_slugify (Some "") ["page=2"; "tag_exact:a%20b+c d"]
       "en"
     = Return (HttpResponsePermanentRedirect "/ask-cfpb/search-by-tag/a_b_c_d/").
Proof.
  split; [reflexivity|]. split; [reflexivity|]. split; [reflexivity|].
  refine (proj1 (C6_tag_redirect ascii_slugify (Some "")
                   ["page=2"; "tag_exact:a%20b+c d"] "en" "a%20b+c d"
                   eq_refl eq_refl _ eq_refl)).
  intros f [<-|[<-|[]]]; split; reflexivity.
Defined.

(** An empty first facet in front of the audience facet: the bare search
    page. *)
Lemma C7_counterexample :
  first_value category_facet [""; "audience_exact:service+members"] = None
  /\ first_value audience_facet [""; "audience_exact:service+members"]
     = Some "service+members"
  /\ resolve_redirect ascii_slugify None [""; "audience_exact:service+members"]
       "en"
     = Return (HttpResponsePermanentRedirect "/ask-cfpb/search/").
Proof.
  repeat split; reflexivity.
Qed.

Lemma C7_audience_redirect_witness :
  Py.truthy_opt None = false
  /\ ascii_slugify "service-members" = "service-members"
  /\ resolve_redirect ascii_slugify None
       ["audience_exact:service+members"; "category_exact:"] "es"
     = Return
         (HttpResponsePermanentRedirect "/ask-cfpb/audience-service-members/").
Proof.
  split; [reflexivity|]. split; [reflexivity|].
  refine (proj1 (C7_audience_redirect ascii_slugify None
                   ["audience_exact:service+members"; "category_exact:"] "es"
                   "service+members" eq_refl eq_refl _ _)).
  - intros f [<-|[<-|[]]]; reflexivity.
  - reflexivity.
Defined.

Lemma C8_configuration_error_witness :
  annotate_links sample_bs sample_str sample_urljoin
    [ {| is_default_site := false; root_url := "http://content.localhost" |} ]
    sample_text
  = Raise (RuntimeError "no default wagtail site configured").
Proof.
  apply (proj1 (C8_configuration_error sample_bs sample_str sample_urljoin
                  [ {| is_default_site := false;
                       root_url := "http://content.localhost" |} ]
                  sample_text)).
  intros site [<-|[]]. reflexivity.
Defined.

Lemma C9_no_links_unchanged_witness :
  objects_get is_default_site sample_sites
  = Return {| is_default_site := true;
              root_url := "https://www.consumerfinance.gov" |}
  /\ annotate_links sample_bs sample_str sample_urljoin sample_sites plain_text
     = Return
         ("<html><body><p>No <a name='top'>links</a> here.</p></body></html>",
          []).
Proof.
  split; [reflexivity|].
  refine (proj2 (C9_no_links_unchanged sample_bs sample_str sample_urljoin
                   sample_sites
                   {| is_default_site := true;
                      root_url := "https://www.consumerfinance.gov" |}
                   plain_text eq_refl _)).
  intros link [<-|[]]. reflexivity.
Defined.

(** The category marker in the middle of a facet, and twice. *)
Lemma C10_marker_anywhere_witness :
  Py.contains category_facet "xcategory_exact:Credit category_exact:Cards" = true
  /\ Py.replace category_facet "" "xcategory_exact:Credit category_exact:Cards"
     = "xCredit Cards"
  /\ resolve_redirect ascii_slugify None
       ["xcategory_exact:Credit category_exact:Cards"] "en"
     = Return (HttpResponsePermanentRedirect "/ask-cfpb/category-xcredit-cards/").
Proof.
  split; [reflexivity|]. split; [reflexivity|].
  apply (proj1 (proj2 (proj2 (proj2 (proj2 (proj2
           (C10_marker_anywhere ascii_slugify
              "xcategory_exact:Credit category_exact:Cards" "en"))))))).
  - reflexivity.
  - discriminate.
Defined.

(** ** The search index and the views *)

(** X7.  [ask_autocomplete] asks the index about nothing but a term that
    is not empty and holds no [<]: two indexes that agree on such terms get
    the same answer for every request. *)
Theorem X7_autocomplete_term_is_clean
  (index1 index2 : string -> string -> option (list SearchResult))
  (request : HttpRequest) (language : string) :
  (forall term,
     term <> "" -> Py.contains "<" term = false ->
     index1 term language = index2 term language) ->
  ask_autocomplete index1 request language
  = ask_autocomplete index2 request language.
Proof.
  intro Hagree. unfold ask_autocomplete. cbv zeta.
  destruct (Py.truthy (Py.replace "<" "" _)) eqn:Hterm; [|reflexivity].
  cbn [negb]. rewrite Hagree; [reflexivity | | ].
  - apply truthy_true_iff. exact Hterm.
  - apply contains_replace_char_out.
Qed.

(** X11.  Without [selected_facets] and without a query, or with an empty
    one, [ask_search] does not search: whatever the search backend and
    [as_json], the answer is the same, and when it is an answer it is the
    results page served with an empty query, not JSON. *)
Theorem X11_no_query_no_search (slugify : string -> string)
  (new1 new2 : string -> string -> AskSearch)
  (suggest1 suggest2 : AskSearch -> HttpRequest -> AskSearch)
  (results_pages : list AnswerResultsPage) (request : HttpRequest)
  (language : string) (as_json1 as_json2 : bool) :
  has_key (GET request) "selected_facets" = false ->
  get_or (GET request) "q" "" = "" ->
  ask_search slugify new1 suggest1 results_pages request language as_json1
  = ask_search slugify new2 suggest2 results_pages request language as_json2
  /\ forall response,
       ask_search slugify new1 suggest1 results_pages request language as_json1
       = Answered response ->
       exists page,
         response = ServedResults page
         /\ query page = Some "" /\ result_query page = Some "".
Proof.
  intros Hkey Hq. unfold ask_search. rewrite Hkey, Hq. cbv zeta.
  cbn [Py.truthy negb]. split; [reflexivity|].
  intros response H.
  destruct (language_map language); [|discriminate].
  destruct (get_object_or_404 _ results_pages); [|discriminate].
  injection H as <-. eexists. repeat split.
Qed.

(** X18.  The backend's suggestion is asked for only when the query has no
    hit: when it has one, the answer does not depend on what [suggest]
    would do. *)
Theorem X18_suggestion_only_without_hits (slugify : string -> string)
  (new_search : string -> string -> AskSearch)
  (suggest1 suggest2 : AskSearch -> HttpRequest -> AskSearch)
  (results_pages : list AnswerResultsPage) (request : HttpRequest)
  (language : string) (as_json : bool) :
  queryset (new_search (get_or (GET request) "q" "") language) <> [] ->
  ask_search slugify new_search suggest1 results_pages request language as_json
  = ask_search slugify new_search suggest2 results_pages request language
      as_json.
Proof.
  intro Hhits. unfold ask_search. cbv zeta.
  destruct (queryset (new_search (get_or (GET request) "q" "") language))
    as [|hit hits] eqn:E; [now elim Hhits|].
  cbn [List.length Nat.eqb]. reflexivity.
Qed.

(** ** The properties above on the samples *)

Lemma X2_other_languages_as_english_witness :
  "fr" <> "es"
  /\ redirect_ask_search ascii_slugify
       {| GET := [("selected_facets", "category_exact:Credit Cards")] |} "fr"
     = Return (HttpResponsePermanentRedirect "/ask-cfpb/category-credit-cards/").
Proof.
  split; [discriminate|].
  refine (eq_trans
            (X2_other_languages_as_english ascii_slugify
               {| GET := [("selected_facets", "category_exact:Credit Cards")] |}
               "fr" _) _).
  - discriminate.
  - reflexivity.
Defined.

Lemma X3_clean_tag_kept_witness :
  first_value tag_facet ["tag_exact:pay_day_loan"] = Some "pay_day_loan"
  /\ resolve_redirect ascii_slugify None ["tag_exact:pay_day_loan"] "en"
     = Return (redirect_to_tag "pay_day_loan" "en").
Proof.
  split; [reflexivity|].
  apply (X3_clean_tag_kept ascii_slugify None ["tag_exact:pay_day_loan"] "en"
           "pay_day_loan"); reflexivity.
Defined.

Lemma X4_tag_has_no_separator_witness :
  first_value tag_facet ["tag_exact:a b+c%20d"] = Some "a b+c%20d"
  /\ exists tag,
       resolve_redirect ascii_slugify None ["tag_exact:a b+c%20d"] "es"
       = Return (redirect_to_tag tag "es")
       /\ Py.contains " " tag = false
       /\ Py.contains "+" tag = false
       /\ Py.contains "%20" tag = false.
Proof.
  split; [reflexivity|].
  apply (X4_tag_has_no_separator ascii_slugify None ["tag_exact:a b+c%20d"]
           "es" "a b+c%20d"); reflexivity.
Defined.

Lemma X5_other_parameters_ignored_witness :
  "page" <> "q"
  /\ "page" <> "selected_facets"
  /\ redirect_ask_search ascii_slugify
       {| GET := ([("selected_facets", "tag_exact:x")]
                  ++ ("page", "2") :: [("selected_facets", "tag_exact:y")])%list |}
       "en"
     = redirect_ask_search ascii_slugify
         {| GET := ([("selected_facets", "tag_exact:x")]
                    ++ [("selected_facets", "tag_exact:y")])%list |}
         "en".
Proof.
  split; [discriminate|]. split; [discriminate|].
  apply X5_other_parameters_ignored; discriminate.
Defined.

Lemma X7_autocomplete_term_is_clean_witness :
  ask_autocomplete sample_sqs {| GET := [("term", " <mortgage ")] |} "en"
  = ask_autocomplete guarded_sqs {| GET := [("term", " <mortgage ")] |} "en".
Proof.
  apply X7_autocomplete_term_is_clean.
  intros term Hne Hclean. unfold guarded_sqs.
  apply truthy_true_iff in Hne. rewrite Hne, Hclean. reflexivity.
Defined.

Lemma X8_facets_go_to_redirector_witness :
  has_key [("q", "loans"); ("selected_facets", "")] "selected_facets" = true
  /\ (ask_search ascii_slugify sample_new_AskSearch sample_suggest []
        {| GET := [("q", "loans"); ("selected_facets", "")] |} "fr" true
      = Failed (Raised Http404)
      \/ exists url,
           ask_search ascii_slugify sample_new_AskSearch sample_suggest []
             {| GET := [("q", "loans"); ("selected_facets", "")] |} "fr" true
           = Answered (LegacyRedirect (HttpResponsePermanentRedirect url))
           /\ (Py.starts "/ask-cfpb/" url = true
               \/ ("fr" = "es"
                   /\ Py.starts "/es/obtener-respuestas/" url = true))).
Proof.
  split; [reflexivity|].
  apply X8_facets_go_to_redirector. reflexivity.
Defined.

Lemma X10_json_matches_page_witness :
  ask_search ascii_slugify sample_new_AskSearch sample_suggest
    sample_results_pages {| GET := [("q", "mortgage")] |} "en" false
  = Answered (ServedResults sample_served_page)
  /\ exists hits,
       answers sample_served_page
       = map (fun r => (result_url r, result_autocomplete r, result_preview r))
           hits
       /\ ask_search ascii_slugify sample_new_AskSearch sample_suggest
            sample_results_pages {| GET := [("q", "mortgage")] |} "en" true
          = Answered
              (JsonBody
                 (JObject
                    [("query", json_of_option (query sample_served_page));
                     ("result_query",
                      json_of_option (result_query sample_served_page));
                     ("suggestion",
                      json_of_option (results_suggestion sample_served_page));
                     ("results", JArray (map result_json hits))])).
Proof.
  split; [reflexivity|].
  apply X10_json_matches_page; [discriminate | reflexivity].
Defined.

Lemma X11_no_query_no_search_witness :
  ask_search ascii_slugify sample_new_AskSearch sample_suggest
    sample_results_pages {| GET := [("q", "")] |} "es" true
  = ask_search ascii_slugify (fun q _ => sample_suggest (sample_new_AskSearch q q) {| GET := [] |})
      (fun search _ => search)
      sample_results_pages {| GET := [("q", "")] |} "es" false
  /\ forall response,
       ask_search ascii_slugify sample_new_AskSearch sample_suggest
         sample_results_pages {| GET := [("q", "")] |} "es" true
       = Answered response ->
       exists page,
         response = ServedResults page
         /\ query page = Some "" /\ result_query page = Some "".
Proof.
  apply X11_no_query_no_search; reflexivity.
Defined.

Lemma X12_served_under_own_slug_witness :
  view_answer sample_AnswerPage_get unit string (fun _ => None)
    (fun _ _ => Raise Http404) {| GET := [] |} "what-is-a-mortgage" "en" "99"
  = Return (ServedAnswer string sample_answer_page)
  /\ exists answer_page,
       sample_AnswerPage_get "en" "99" = Return answer_page
       /\ live answer_page = true
       /\ redirect_url answer_page = None
       /\ answer_slug answer_page = "what-is-a-mortgage" ++ "-" ++ "en" ++ "-" ++ "99".
Proof.
  split; [reflexivity|].
  apply (X12_served_under_own_slug sample_AnswerPage_get unit string
           (fun _ => None) (fun _ _ => Raise Http404) {| GET := [] |}
           "what-is-a-mortgage" "en" "99"
           (ServedAnswer string sample_answer_page)).
  - reflexivity.
  - intros redirected. discriminate.
Defined.

Lemma X13_redirects_of_view_answer_witness :
  view_answer sample_AnswerPage_get unit string (fun _ => None)
    (fun _ _ => Raise Http404) {| GET := [] |} "mortgages" "en" "99"
  = Return
      (AnswerRedirect string
         (HttpResponsePermanentRedirect "/ask-cfpb/what-is-a-mortgage-en-99/"))
  /\ exists answer_page url,
       sample_AnswerPage_get "en" "99" = Return answer_page
       /\ live answer_page = true
       /\ HttpResponsePermanentRedirect "/ask-cfpb/what-is-a-mortgage-en-99/"
          = HttpResponsePermanentRedirect url
       /\ (redirect_url answer_page = Some url
           \/ (redirect_url answer_page = None
               /\ url = answer_url answer_page
               /\ answer_slug answer_page
                  <> "mortgages" ++ "-" ++ "en" ++ "-" ++ "99")).
Proof.
  split; [reflexivity|].
  apply (X13_redirects_of_view_answer sample_AnswerPage_get unit string
           (fun _ => None) (fun _ _ => Raise Http404) {| GET := [] |}
           "mortgages" "en" "99").
  reflexivity.
Defined.

Lemma X14_annotation_keeps_anchors_witness :
  annotate_loop sample_urljoin
    {| is_default_site := true; root_url := "https://www.consumerfinance.gov" |}
    (findAll "a" sample_soup) (sample_soup, [], 1)
  = Return
      (annotated_soup,
       [(1, "https://www.consumerfinance.gov/ask-cfpb/");
        (2, "https://example.com/x")], 3)
  /\ map anchor_head (findAll "a" annotated_soup)
     = map anchor_head (findAll "a" sample_soup)
  /\ destinations (findAll "a" annotated_soup)
     = destinations (findAll "a" sample_soup).
Proof.
  split; [reflexivity|].
  apply (X14_annotation_keeps_anchors sample_urljoin
           {| is_default_site := true;
              root_url := "https://www.consumerfinance.gov" |}
           (findAll "a" sample_soup) sample_soup [] 1 annotated_soup
           [(1, "https://www.consumerfinance.gov/ask-cfpb/");
            (2, "https://example.com/x")] 3).
  reflexivity.
Defined.

Lemma X15_marker_after_each_link_witness :
  map ident_of (findAll "a" sample_soup) = [4; 5; 6; 7]
  /\ Forall2
       (fun link footnote =>
          occurs (ident_of link) annotated_soup = true
          /\ followed_by (ident_of link) (fst footnote) annotated_soup = true)
       (filter has_destination (findAll "a" sample_soup))
       [(1, "https://www.consumerfinance.gov/ask-cfpb/");
        (2, "https://example.com/x")].
Proof.
  split; [reflexivity|].
  apply (X15_marker_after_each_link sample_urljoin
           {| is_default_site := true;
              root_url := "https://www.consumerfinance.gov" |}
           sample_soup annotated_soup
           [(1, "https://www.consumerfinance.gov/ask-cfpb/");
            (2, "https://example.com/x")] 3).
  - change (NoDup [4; 5; 6; 7]).
    repeat (constructor;
            [cbn [In]; intro H;
             repeat (destruct H as [H|H]; [discriminate H|]); exact H|]).
    constructor.
  - reflexivity.
Defined.

Lemma X16_unresolvable_destination_witness :
  objects_get is_default_site sample_sites
  = Return {| is_default_site := true;
              root_url := "https://www.consumerfinance.gov" |}
  /\ exists html footnotes,
       annotate_links sample_bs sample_str sample_urljoin sample_sites
         sample_text
       = Return (html, footnotes).
Proof.
  split; [reflexivity|].
  refine (proj2 (X16_unresolvable_destination sample_bs sample_str
                   sample_urljoin sample_sites
                   {| is_default_site := true;
                      root_url := "https://www.consumerfinance.gov" |}
                   sample_text eq_refl) _).
  intros href _. unfold sample_urljoin.
  destruct (Py.starts "https://" href || Py.starts "http://" href);
    discriminate.
Defined.

Lemma X17_exceptions_of_annotate_links_witness :
  annotate_links sample_bs sample_str sample_urljoin
    (sample_sites ++ sample_sites)%list sample_text
  = Raise MultipleObjectsReturned
  /\ 2 <= List.length (filter is_default_site (sample_sites ++ sample_sites)%list).
Proof.
  split; [reflexivity|].
  destruct (X17_exceptions_of_annotate_links sample_bs sample_str
              sample_urljoin (sample_sites ++ sample_sites)%list sample_text
              MultipleObjectsReturned eq_refl)
    as [[H _]|[[_ H]|[H _]]]; [discriminate H | exact H | discriminate H].
Defined.

Lemma X18_suggestion_only_without_hits_witness :
  queryset (sample_new_AskSearch "mortgage" "en") <> []
  /\ ask_search ascii_slugify sample_new_AskSearch sample_suggest
       sample_results_pages {| GET := [("q", "mortgage")] |} "en" true
     = ask_search ascii_slugify sample_new_AskSearch (fun search _ => search)
         sample_results_pages {| GET := [("q", "mortgage")] |} "en" true.
Proof.
  split; [discriminate|].
  apply X18_suggestion_only_without_hits. discriminate.
Defined.
